(** * Recipe cost and nutrient summary (src/main.ts)

    A shallow embedding of the functions of [src/main.ts]:
    [convertUnitsWithFallback], [handleVolumeToMassConversion],
    [handleMassToVolumeConversion], [getNormalizedCost],
    [findCheapestSupplier], [calculateNutrientContribution],
    [sortNutrientsAlphabetically] and [calculateRecipeSummary].

    - A JavaScript [number] is an IEEE 754 binary64 value: the model uses the
      Standard Library's [spec_float] with precision 53 and maximal exponent
      1024, whose operations round to nearest, ties to even.
    - A thrown exception is a [Throw] result; [try]/[catch] is a match on it.
    - An object used as a dictionary is the list of its own properties in
      creation order; [Object.keys] lists array-index names first, in
      ascending numeric order, and then the other names in creation order.
      The read [nutrientMap[name]] of [calculateNutrientContribution] sees
      the own properties and, for a name the object does not own, what
      [Object.prototype] holds under it.  The assignment [o[k] = v] is
      modelled for the names other than [__proto__], under which it creates
      or replaces an own property; under [__proto__] JavaScript sets the
      prototype of the object and creates no property.
    - A string is the sequence of its code units, here below 256; strings
      compare code unit by code unit, as [<] and [sort()] do.
    - The helpers imported from [supporting-files] are parameters of the
      development. *)

From Stdlib Require Import ZArith NArith Ascii String List SpecFloat.
From stdpp Require Import base decidable option list sorting strings.

Set Default Proof Using "Type".
Local Open Scope Z_scope.

(** ** Numbers *)

Module Number.

Definition prec : Z := 53.
Definition emax : Z := 1024.

Definition number : Type := spec_float.

Definition add : number -> number -> number := SFadd prec emax.
Definition mul : number -> number -> number := SFmul prec emax.
Definition div : number -> number -> number := SFdiv prec emax.
Definition ltb : number -> number -> bool := SFltb.
Definition leb : number -> number -> bool := SFleb.

(** The literals [Infinity] and [0], and the value of an integer literal. *)
Definition Infinity : number := S754_infinity false.
Definition zero : number := S754_zero false.
Definition of_Z (z : Z) : number := binary_normalize prec emax z 0 false.

End Number.

Import Number.

Arguments add : simpl never.
Arguments mul : simpl never.
Arguments div : simpl never.
Arguments ltb : simpl never.
Arguments leb : simpl never.
Arguments of_Z : simpl never.

(** ** Exceptions and loops *)

(** [Result E A] is the outcome of a call: a returned value or a thrown
    error.  [x ← m; k] runs [k] only when [m] returned. *)
Inductive Result (E A : Type) : Type :=
  | Return (a : A)
  | Throw (e : E).
Arguments Return {E A} a.
Arguments Throw {E A} e.

#[global] Instance Result_ret {E} : MRet (Result E) := fun _ a => Return a.
#[global] Instance Result_bind {E} : MBind (Result E) := fun _ _ k m =>
  match m with
  | Return a => k a
  | Throw e => Throw e
  end.

(** [for (const x of l) body]: the loop threads the variables it assigns, and
    an exception thrown by the body ends it. *)
Fixpoint forOf {E S A} (body : S -> A -> Result E S) (l : list A) (s : S)
    : Result E S :=
  match l with
  | [] => Return s
  | x :: l' => s' ← body s x; forOf body l' s'
  end.

(** ** Objects used as dictionaries *)

Module JsObject.

(** An array index is a canonical decimal numeral below [2^32 - 1]. *)
Definition digit (c : ascii) : option N :=
  let n := N_of_ascii c in
  if ((48 <=? n) && (n <=? 57))%N then Some (n - 48)%N else None.

Fixpoint decimal (s : string) (acc : N) : option N :=
  match s with
  | EmptyString => Some acc
  | String c s' => d ← digit c; decimal s' (10 * acc + d)%N
  end.

Definition arrayIndex (s : string) : option N :=
  match s with
  | EmptyString => None
  | String c s' =>
      if bool_decide (c = "0"%char) then
        if bool_decide (s' = EmptyString) then Some 0%N else None
      else
        n ← decimal s 0%N;
        if (n <? 2 ^ 32 - 1)%N then Some n else None
  end.

Definition isArrayIndex (s : string) : bool :=
  if arrayIndex s is Some _ then true else false.

(** Ascending numeric order of array-index names. *)
Definition indexLe (s1 s2 : string) : Prop :=
  (default 0 (arrayIndex s1) <= default 0 (arrayIndex s2))%N.

#[global] Instance indexLe_dec : RelDecision indexLe.
Proof. intros s1 s2. unfold indexLe. apply _. Defined.

(** The own properties of an object, in the order of their creation. *)
Definition t (V : Type) : Type := list (string * V).

Definition empty {V} : t V := [].

(** [o[k]] for an own property. *)
Fixpoint get {V} (o : t V) (k : string) : option V :=
  match o with
  | [] => None
  | (k', v) :: o' => if bool_decide (k' = k) then Some v else get o' k
  end.

(** [o[k] = v], for a name other than [__proto__]: an existing property
    keeps its place, a new one is created last. *)
Fixpoint set {V} (o : t V) (k : string) (v : V) : t V :=
  match o with
  | [] => [(k, v)]
  | (k', v') :: o' =>
      if bool_decide (k' = k) then (k', v) :: o' else (k', v') :: set o' k v
  end.

(** An assignment to a field of the object stored under [k]. *)
Fixpoint update {V} (o : t V) (k : string) (f : V -> V) : t V :=
  match o with
  | [] => []
  | (k', v') :: o' =>
      if bool_decide (k' = k) then (k', f v') :: o' else (k', v') :: update o' k f
  end.

(** [Object.keys(o)]: array indices in ascending numeric order, then the
    other names in creation order. *)
Definition keys {V} (o : t V) : list string :=
  merge_sort indexLe (filter (fun k => isArrayIndex k = true) o.*1)
    ++ filter (fun k => isArrayIndex k <> true) o.*1.

(** [Array.prototype.sort()] on strings, without a comparator: ascending
    order of the code units. *)
Definition sort (l : list string) : list string := merge_sort String.le l.

(** The names of the properties of [Object.prototype], which an object
    created by [{}] inherits: methods, and the accessor [__proto__]. *)
Definition inheritedNames : list string :=
  [ "constructor"; "__defineGetter__"; "__defineSetter__"; "hasOwnProperty";
    "__lookupGetter__"; "__lookupSetter__"; "isPrototypeOf";
    "propertyIsEnumerable"; "toString"; "valueOf"; "__proto__";
    "toLocaleString" ]%string.

Definition inherited (k : string) : bool := bool_decide (k ∈ inheritedNames).

(** The value of the expression [o[k]]: the value of the own property; for a
    name the object does not own, what [Object.prototype] holds under it (a
    function, or for [__proto__] the prototype itself: truthy, and without
    the fields of a stored value); [undefined] otherwise. *)
Inductive Read (V : Type) : Type :=
  | Own (v : V)
  | Inherited
  | Undefined.
Arguments Own {V} v.
Arguments Inherited {V}.
Arguments Undefined {V}.

Definition read {V} (o : t V) (k : string) : Read V :=
  match get o k with
  | Some v => Own v
  | None => if inherited k then Inherited else Undefined
  end.

End JsObject.

(** ** Data model (supporting-files/models) *)

(** The enumerations [UoMName] and [UoMType] are declared in
    [supporting-files/models]; the code names two members of each and
    compares them with [===]. *)
Class Units : Type := {
  UoMName : Type;
  UoMType : Type;
  UoMName_eq_dec :: EqDecision UoMName;
  UoMType_eq_dec :: EqDecision UoMType;
  grams : UoMName;
  millilitres : UoMName;
  mass : UoMType;
  volume : UoMType;
}.

Section Models.
Context `{Units}.

(** The fields of the object literals of lines 193-201. *)
Record UnitOfMeasure : Type := {
  uomAmount : number;
  uomName : UoMName;
  uomType : UoMType;
}.

Record NutrientFact : Type := {
  nutrientName : string;
  quantityAmount : UnitOfMeasure;
  quantityPer : UnitOfMeasure;
}.

(** Modelled from the spec: the declarations of [SupplierProduct],
    [Product], [Ingredient], [LineItem] and [Recipe] are in
    [supporting-files/models]; the records hold the fields of the spec's
    data model under the names the code reads them by. *)
Record SupplierProduct : Type := {
  supplierPrice : number;
  supplierProductUoM : UnitOfMeasure;
}.

Record Product : Type := {
  supplierProducts : list SupplierProduct;
  nutrientFacts : list NutrientFact;
}.

Record Ingredient : Type := {
  ingredientName : string;
}.

Record LineItem : Type := {
  ingredient : Ingredient;
  unitOfMeasure : UnitOfMeasure;
}.

Record Recipe : Type := {
  recipeName : string;
  lineItems : list LineItem;
}.

(** The object [findCheapestSupplier] returns. *)
Record SelectedSupplier : Type := {
  cost : number;
  product : Product;
  supplier : SupplierProduct;
}.

(** An entry of the object [calculateRecipeSummary] returns. *)
Record RecipeSummary : Type := {
  cheapestCost : number;
  nutrientsAtCheapestCost : JsObject.t NutrientFact;
}.

End Models.

(** ** Collaborators (supporting-files/helpers and data-access) *)

(** The helpers as the spec's interface gives them (section 6):
    [ConvertUnits] throws when it has no conversion, [ExtError] being the
    type of what it throws; the other two return. *)
Class Helpers `{Units} : Type := {
  ExtError : Type;
  ConvertUnits : UnitOfMeasure -> UoMName -> UoMType -> Result ExtError UnitOfMeasure;
  GetNutrientFactInBaseUnits : NutrientFact -> NutrientFact;
  GetProductsForIngredient : Ingredient -> list Product;
}.

Section Program.
Context `{Helpers}.

(** ** Errors *)

(** An error of [ConvertUnits] that the code lets through; the two errors
    the code constructs, with the values their messages interpolate:
    [Unsupported conversion: fromType (fromName) -> toType (toName)] and
    [No supplier found for ingredient: name]; and the [TypeError] of reading
    a property of [undefined] (line 221). *)
Inductive Error : Type :=
  | External (e : ExtError)
  | UnsupportedConversion
      (fromType : UoMType) (fromName : UoMName)
      (toType : UoMType) (toName : UoMName)
  | NoSupplierFound (name : string)
  | TypeError.

(** A call of [ConvertUnits] outside a [try]: its error goes through. *)
Definition callConvertUnits (fromUoM : UnitOfMeasure)
    (toUoMName : UoMName) (toUoMType : UoMType) : Result Error UnitOfMeasure :=
  match ConvertUnits fromUoM toUoMName toUoMType with
  | Return u => Return u
  | Throw e => Throw (External e)
  end.

(** ** Unit conversion with fallback (main.ts 47-110) *)

Definition handleVolumeToMassConversion (fromUoM : UnitOfMeasure)
    (toUoMName : UoMName) : Result Error UnitOfMeasure :=
  volumeInMl ← callConvertUnits fromUoM millilitres volume;
  massInGrams ← callConvertUnits volumeInMl grams mass;
  callConvertUnits massInGrams toUoMName mass.

Definition handleMassToVolumeConversion (fromUoM : UnitOfMeasure)
    (toUoMName : UoMName) : Result Error UnitOfMeasure :=
  massInGrams ← callConvertUnits fromUoM grams mass;
  volumeInMl ← callConvertUnits massInGrams millilitres volume;
  callConvertUnits volumeInMl toUoMName volume.

Definition convertUnitsWithFallback (fromUoM : UnitOfMeasure)
    (toUoMName : UoMName) (toUoMType : UoMType) : Result Error UnitOfMeasure :=
  match ConvertUnits fromUoM toUoMName toUoMType with
  | Return u => Return u
  | Throw _ =>
      if bool_decide (uomType fromUoM = volume) && bool_decide (toUoMType = mass)
      then handleVolumeToMassConversion fromUoM toUoMName
      else if bool_decide (uomType fromUoM = mass) && bool_decide (toUoMType = volume)
      then handleMassToVolumeConversion fromUoM toUoMName
      else Throw (UnsupportedConversion
                    (uomType fromUoM) (uomName fromUoM) toUoMType toUoMName)
  end.

(** ** Cost per gram (main.ts 117-125) *)

Definition getNormalizedCost (supplier : SupplierProduct) : Result Error number :=
  converted ← convertUnitsWithFallback (supplierProductUoM supplier) grams mass;
  let supplierMassInGrams := uomAmount converted in
  mret (div (supplierPrice supplier) supplierMassInGrams).

(** ** Cheapest supplier (main.ts 134-162) *)

(** The variables the two loops assign: [lowestNormalizedCost] and
    [selectedSupplier]. *)
Definition Selection : Type := (number * option SelectedSupplier)%type.

(** The body of the inner loop (lines 147-151). *)
Definition considerSupplier (product : Product) (st : Selection)
    (supplier : SupplierProduct) : Result Error Selection :=
  normalizedCost ← getNormalizedCost supplier;
  if ltb normalizedCost st.1
  then mret (normalizedCost,
             Some {| cost := normalizedCost; product := product; supplier := supplier |})
  else mret st.

Definition findCheapestSupplier (ingredient : Ingredient)
    (availableProducts : list Product) : Result Error SelectedSupplier :=
  st ← forOf (fun st product => forOf (considerSupplier product) (supplierProducts product) st)
         availableProducts (Infinity, None);
  match st.2 with
  | None => Throw (NoSupplierFound (ingredientName ingredient))
  | Some selectedSupplier => Return selectedSupplier
  end.

(** ** Nutrient contribution (main.ts 171-226) *)

(** The entry created for a nutrient that the map does not hold yet
    (lines 193-201). *)
Definition initialEntry (baseFact : NutrientFact) : NutrientFact :=
  {| nutrientName := nutrientName baseFact;
     quantityAmount :=
       {| uomAmount := zero;
          uomName := uomName (quantityAmount baseFact);
          uomType := uomType (quantityAmount baseFact) |};
     quantityPer := quantityPer baseFact |}.

(** [fact.quantityAmount.uomAmount += value] (lines 221-222). *)
Definition addToAmount (value : number) (fact : NutrientFact) : NutrientFact :=
  {| nutrientName := nutrientName fact;
     quantityAmount :=
       {| uomAmount := add (uomAmount (quantityAmount fact)) value;
          uomName := uomName (quantityAmount fact);
          uomType := uomType (quantityAmount fact) |};
     quantityPer := quantityPer fact |}.

(** The body of the loop over the nutrient facts (lines 189-222).  The test
    of line 192 is on the value of [nutrientMap[name]]: an entry of the map
    and what [Object.prototype] holds are truthy, so the entry is created
    only when the read gives [undefined].  Line 221 reads the amount of
    [nutrientMap[name].quantityAmount]: what [Object.prototype] holds has no
    [quantityAmount], and the read of [uomAmount] throws a [TypeError]. *)
Definition accumulateNutrient (requiredUoM : UnitOfMeasure) (normalizedAmount : number)
    (nutrientMap : JsObject.t NutrientFact) (nutrientFact : NutrientFact)
    : Result Error (JsObject.t NutrientFact) :=
  let baseFact := GetNutrientFactInBaseUnits nutrientFact in
  let nutrientMap :=
    match JsObject.read nutrientMap (nutrientName baseFact) with
    | JsObject.Undefined =>
        JsObject.set nutrientMap (nutrientName baseFact) (initialEntry baseFact)
    | JsObject.Own _ | JsObject.Inherited => nutrientMap
    end in
  converted ← convertUnitsWithFallback requiredUoM
                (uomName (quantityPer baseFact)) (uomType (quantityPer baseFact));
  let ingredientAmountInBaseUnit := uomAmount converted in
  let nutrientPerBaseUnit :=
    div (uomAmount (quantityAmount baseFact)) (uomAmount (quantityPer baseFact)) in
  let totalNutrientAmount := mul nutrientPerBaseUnit ingredientAmountInBaseUnit in
  let normalizedValue :=
    mul (div totalNutrientAmount normalizedAmount) (uomAmount (quantityPer baseFact)) in
  match JsObject.read nutrientMap (nutrientName baseFact) with
  | JsObject.Own _ =>
      mret (JsObject.update nutrientMap (nutrientName baseFact)
              (addToAmount normalizedValue))
  | JsObject.Inherited | JsObject.Undefined => Throw TypeError
  end.

(** The function mutates [nutrientMap]; the model returns the map it leaves
    together with the returned number. *)
Definition calculateNutrientContribution (requiredUoM : UnitOfMeasure)
    (selectedSupplier : SelectedSupplier) (nutrientMap : JsObject.t NutrientFact)
    : Result Error (JsObject.t NutrientFact * number) :=
  converted ← convertUnitsWithFallback requiredUoM grams mass;
  let normalizedAmount := uomAmount converted in
  nutrientMap ← forOf (accumulateNutrient requiredUoM normalizedAmount)
                  (nutrientFacts (product selectedSupplier)) nutrientMap;
  mret (nutrientMap, mul normalizedAmount (cost selectedSupplier)).

(** ** Alphabetical order (main.ts 233-243) *)

Definition sortNutrientsAlphabetically (nutrientMap : JsObject.t NutrientFact)
    : JsObject.t NutrientFact :=
  fold_left
    (fun orderedNutrientMap nutrientName =>
       match JsObject.get nutrientMap nutrientName with
       | Some fact => JsObject.set orderedNutrientMap nutrientName fact
       | None => orderedNutrientMap
       end)
    (JsObject.sort (JsObject.keys nutrientMap)) JsObject.empty.

(** ** Recipe summary (main.ts 256-305) *)

(** The body of the loop over the line items (lines 275-291); the loop
    assigns [totalCost] and mutates [nutrientMap]. *)
Definition processLineItem (st : number * JsObject.t NutrientFact) (lineItem : LineItem)
    : Result Error (number * JsObject.t NutrientFact) :=
  let ingredient := ingredient lineItem in
  let requiredUoM := unitOfMeasure lineItem in
  let availableProducts := GetProductsForIngredient ingredient in
  selectedSupplier ← findCheapestSupplier ingredient availableProducts;
  r ← calculateNutrientContribution requiredUoM selectedSupplier st.2;
  let ingredientCost := r.2 in
  mret (add st.1 ingredientCost, r.1).

(** Lines 270-301 up to the assignment to [summary]: the summary of one
    recipe. *)
Definition summarizeRecipe (recipe : Recipe) : Result Error RecipeSummary :=
  st ← forOf processLineItem (lineItems recipe) (zero, JsObject.empty);
  let orderedNutrientMap := sortNutrientsAlphabetically st.2 in
  mret {| cheapestCost := st.1; nutrientsAtCheapestCost := orderedNutrientMap |}.

Definition calculateRecipeSummary (recipes : list Recipe)
    : Result Error (JsObject.t RecipeSummary) :=
  forOf (fun summary recipe =>
           s ← summarizeRecipe recipe;
           mret (JsObject.set summary (recipeName recipe) s))
        recipes JsObject.empty.

End Program.

(** ** Vocabulary of the properties *)

Section Vocabulary.
Context `{Helpers}.

(** Every supplier of every candidate product, with its product, in the
    order the two loops of [findCheapestSupplier] visit them. *)
Definition candidates (availableProducts : list Product)
    : list (Product * SupplierProduct) :=
  flat_map (fun product => map (pair product) (supplierProducts product))
    availableProducts.

(** The cost computation of a candidate succeeds with cost [k]. *)
Definition costIs (c : Product * SupplierProduct) (k : number) : Prop :=
  getNormalizedCost c.2 = Return k.

(** The two nested loops visit the candidates in order. *)
Definition scan (cs : list (Product * SupplierProduct)) (st : Selection)
    : Result Error Selection :=
  forOf (fun st c => considerSupplier c.1 st c.2) cs st.

(** [err] is thrown by the cost computation of the first candidate that has
    no cost. *)
Definition firstFailure (cs : list (Product * SupplierProduct)) (err : Error) : Prop :=
  exists pre c post,
    cs = pre ++ c :: post /\
    Forall (fun c' => exists k, costIs c' k) pre /\
    getNormalizedCost c.2 = Throw err.

(** [sel] is candidate [i] with its cost: the cost is below [Infinity], no
    candidate costs less, and no earlier candidate costs as little. *)
Definition selects (cs : list (Product * SupplierProduct)) (costs : list number)
    (i : nat) (sel : SelectedSupplier) : Prop :=
  cs !! i = Some (product sel, supplier sel) /\
  costs !! i = Some (cost sel) /\
  ltb (cost sel) Infinity = true /\
  (forall j k, costs !! j = Some k -> ltb k (cost sel) = false) /\
  (forall j k, (j < i)%nat -> costs !! j = Some k -> leb k (cost sel) = false).

(** The variables of the loops after the candidates [cs], whose costs are
    [costs]: nothing selected and no cost below [Infinity], or the selection
    of the first candidate of the lowest cost. *)
Definition scanned (cs : list (Product * SupplierProduct)) (costs : list number)
    (st : Selection) : Prop :=
  match st.2 with
  | None => st.1 = Infinity /\ Forall (fun k => ltb k Infinity = false) costs
  | Some sel => st.1 = cost sel /\ exists i, selects cs costs i sel
  end.

(** A required hop of a three-hop fallback path fails: [e] is what
    [ConvertUnits] throws on the first hop that has no conversion. *)
Definition hopFails (fromUoM : UnitOfMeasure)
    (hop1 hop2 hop3 : UoMName * UoMType) (e : ExtError) : Prop :=
  ConvertUnits fromUoM hop1.1 hop1.2 = Throw e \/
  exists u1, ConvertUnits fromUoM hop1.1 hop1.2 = Return u1 /\
    (ConvertUnits u1 hop2.1 hop2.2 = Throw e \/
     exists u2, ConvertUnits u1 hop2.1 hop2.2 = Return u2 /\
       ConvertUnits u2 hop3.1 hop3.2 = Throw e).

(** The amount the map holds for a nutrient; a nutrient it does not hold yet
    starts at zero. *)
Definition amountOf (nutrientMap : JsObject.t NutrientFact) (name : string) : number :=
  match JsObject.get nutrientMap name with
  | Some fact => uomAmount (quantityAmount fact)
  | None => zero
  end.

(** The spec's contribution of a nutrient fact (section 4.4, steps c to f),
    from the amount of the ingredient in the unit of the fact's [quantityPer]
    and the ingredient's mass in grams. *)
Definition contribution (baseFact : NutrientFact)
    (ingredientAmountInFactUnits normalizedMassGrams : number) : number :=
  let density :=
    div (uomAmount (quantityAmount baseFact)) (uomAmount (quantityPer baseFact)) in
  let totalNutrientForIngredient := mul density ingredientAmountInFactUnits in
  mul (div totalNutrientForIngredient normalizedMassGrams)
      (uomAmount (quantityPer baseFact)).

(** [value] is added to the amount of the entry [name]; the entries of the
    other names stay as they are. *)
Definition Adds (nutrientMap : JsObject.t NutrientFact) (name : string)
    (value : number) (nutrientMap' : JsObject.t NutrientFact) : Prop :=
  (exists entry, JsObject.get nutrientMap' name = Some entry) /\
  amountOf nutrientMap' name = add (amountOf nutrientMap name) value /\
  forall other, other <> name ->
    JsObject.get nutrientMap' other = JsObject.get nutrientMap other.

(** The map after one addition per nutrient fact, in the order of the facts. *)
Inductive Accumulated (requiredUoM : UnitOfMeasure) (normalizedMassGrams : number)
    : list NutrientFact -> JsObject.t NutrientFact -> JsObject.t NutrientFact -> Prop :=
  | Accumulated_nil nutrientMap :
      Accumulated requiredUoM normalizedMassGrams [] nutrientMap nutrientMap
  | Accumulated_cons fact facts converted nutrientMap nutrientMap1 nutrientMap' :
      let baseFact := GetNutrientFactInBaseUnits fact in
      convertUnitsWithFallback requiredUoM
        (uomName (quantityPer baseFact)) (uomType (quantityPer baseFact))
        = Return converted ->
      Adds nutrientMap (nutrientName baseFact)
        (contribution baseFact (uomAmount converted) normalizedMassGrams)
        nutrientMap1 ->
      Accumulated requiredUoM normalizedMassGrams facts nutrientMap1 nutrientMap' ->
      Accumulated requiredUoM normalizedMassGrams (fact :: facts) nutrientMap nutrientMap'.

(** The loop of [sortNutrientsAlphabetically], from any [ordered] map. *)
Definition reinsert (nutrientMap : JsObject.t NutrientFact) (names : list string)
    (ordered : JsObject.t NutrientFact) : JsObject.t NutrientFact :=
  fold_left
    (fun orderedNutrientMap nutrientName =>
       match JsObject.get nutrientMap nutrientName with
       | Some fact => JsObject.set orderedNutrientMap nutrientName fact
       | None => orderedNutrientMap
       end)
    names ordered.

(** The end-to-end scenario of the spec (section 8): a recipe with one line
    item of 500 g; one candidate product with one supplier, at 2.00 per
    1000 g, and the nutrient fact 10 g of protein per 100 g. *)
Definition gramsOf (amount : Z) : UnitOfMeasure :=
  {| uomAmount := of_Z amount; uomName := grams; uomType := mass |}.

Definition proteinPer100g (amount : Z) : NutrientFact :=
  {| nutrientName := "Protein";
     quantityAmount := gramsOf amount;
     quantityPer := gramsOf 100 |}.

Definition scenarioSupplier : SupplierProduct :=
  {| supplierPrice := of_Z 2; supplierProductUoM := gramsOf 1000 |}.

Definition scenarioProduct : Product :=
  {| supplierProducts := [scenarioSupplier];
     nutrientFacts := [proteinPer100g 10] |}.

Definition scenarioRecipe (name : string) (flour : Ingredient) : Recipe :=
  {| recipeName := name;
     lineItems := [ {| ingredient := flour; unitOfMeasure := gramsOf 500 |} ] |}.


End Vocabulary.

(** ** The script (main.ts 24-26 and 308) *)

Section Script.
Context `{Helpers}.

(** [Object.assign(target, source)]: the own properties of [source], in the
    order of [Object.keys], are assigned to [target]. *)
Definition objectAssign {V} (target source : JsObject.t V) : JsObject.t V :=
  fold_left
    (fun target k =>
       match JsObject.get source k with
       | Some v => JsObject.set target k v
       | None => target
       end)
    (JsObject.keys source) target.

(** The script, from the recipes [GetRecipes()] gave: [recipeSummary], an
    empty object, receives the properties of the summary, and is what the
    script passes on. *)
Definition script (recipeData : list Recipe) : Result Error (JsObject.t RecipeSummary) :=
  let recipeSummary := JsObject.empty in
  summary ← calculateRecipeSummary recipeData;
  mret (objectAssign recipeSummary summary).

End Script.

(** ** The cost per gram in a world (main.ts 47-125) *)

(** [ConvertUnits] is a JavaScript function: beside returning or throwing it
    may read and write the objects of the program and whatever lies outside
    it.  Here the functions the cost per gram is computed by are embedded
    with that made explicit: [World] is all a call can read and write, and a
    computation takes the world it starts in to its outcome and the world it
    leaves; a [throw] leaves the world as it is at that point. *)
Module Stateful.
Section Program.
Context `{Helpers} {World : Type}.

Variable ConvertUnitsIn :
  UnitOfMeasure -> UoMName -> UoMType -> World -> Result ExtError UnitOfMeasure * World.

Definition Computation (A : Type) : Type := World -> Result Error A * World.

Definition ret {A} (a : A) : Computation A := fun w => (Return a, w).

Definition throw {A} (e : Error) : Computation A := fun w => (Throw e, w).

Definition bind {A B} (m : Computation A) (k : A -> Computation B) : Computation B :=
  fun w =>
    match m w with
    | (Return a, w') => k a w'
    | (Throw e, w') => (Throw e, w')
    end.

(** A call of [ConvertUnits] outside a [try]. *)
Definition callConvertUnits (fromUoM : UnitOfMeasure)
    (toUoMName : UoMName) (toUoMType : UoMType) : Computation UnitOfMeasure :=
  fun w =>
    match ConvertUnitsIn fromUoM toUoMName toUoMType w with
    | (Return u, w') => (Return u, w')
    | (Throw e, w') => (Throw (External e), w')
    end.

Definition handleVolumeToMassConversion (fromUoM : UnitOfMeasure)
    (toUoMName : UoMName) : Computation UnitOfMeasure :=
  bind (callConvertUnits fromUoM millilitres volume) (fun volumeInMl =>
  bind (callConvertUnits volumeInMl grams mass) (fun massInGrams =>
  callConvertUnits massInGrams toUoMName mass)).

Definition handleMassToVolumeConversion (fromUoM : UnitOfMeasure)
    (toUoMName : UoMName) : Computation UnitOfMeasure :=
  bind (callConvertUnits fromUoM grams mass) (fun massInGrams =>
  bind (callConvertUnits massInGrams millilitres volume) (fun volumeInMl =>
  callConvertUnits volumeInMl toUoMName volume)).

Definition convertUnitsWithFallback (fromUoM : UnitOfMeasure)
    (toUoMName : UoMName) (toUoMType : UoMType) : Computation UnitOfMeasure :=
  fun w =>
    match ConvertUnitsIn fromUoM toUoMName toUoMType w with
    | (Return u, w') => (Return u, w')
    | (Throw _, w') =>
        if bool_decide (uomType fromUoM = volume) && bool_decide (toUoMType = mass)
        then handleVolumeToMassConversion fromUoM toUoMName w'
        else if bool_decide (uomType fromUoM = mass) && bool_decide (toUoMType = volume)
        then handleMassToVolumeConversion fromUoM toUoMName w'
        else throw (UnsupportedConversion
                      (uomType fromUoM) (uomName fromUoM) toUoMType toUoMName) w'
    end.

Definition getNormalizedCost (supplier : SupplierProduct) : Computation number :=
  bind (convertUnitsWithFallback (supplierProductUoM supplier) grams mass)
    (fun converted =>
       let supplierMassInGrams := uomAmount converted in
       ret (div (supplierPrice supplier) supplierMassInGrams)).

End Program.
End Stateful.

(** ** Vocabulary of the further properties *)

Section FurtherVocabulary.
Context `{Helpers}.

(** [===] on numbers. *)
Definition sameNumber (x y : number) : bool := SFeqb x y.

(** The literal [NaN]. *)
Definition NaN : number := S754_nan.

(** A zero of either sign. *)
Definition isZero (x : number) : Prop := exists s, x = S754_zero s.

(** Two entries of a nutrient map on the same basis: the same nutrient, the
    same [quantityPer] and the same unit of the amount. *)
Definition sameBasis (fact fact' : NutrientFact) : Prop :=
  nutrientName fact' = nutrientName fact /\
  quantityPer fact' = quantityPer fact /\
  uomName (quantityAmount fact') = uomName (quantityAmount fact) /\
  uomType (quantityAmount fact') = uomType (quantityAmount fact).

(** Every entry is stored under the name of its nutrient. *)
Definition keyedByName (nutrientMap : JsObject.t NutrientFact) : Prop :=
  Forall (fun entry => nutrientName entry.2 = entry.1) nutrientMap.

(** A supplier whose package converts to zero grams, at a price that does
    not make the quotient negative: a package of [+0] grams at a price that
    is not below [0], or of [-0] grams at a price that is not above [0]. *)
Definition zeroGramPackage (supplier : SupplierProduct) : Prop :=
  exists converted,
    convertUnitsWithFallback (supplierProductUoM supplier) grams mass = Return converted /\
    ((uomAmount converted = S754_zero false /\ ltb (supplierPrice supplier) zero = false) \/
     (uomAmount converted = S754_zero true /\ ltb zero (supplierPrice supplier) = false)).

(** The cost of a line item: the cost per gram of its cheapest supplier times
    its required quantity in grams. *)
Definition lineItemCostIs (lineItem : LineItem) (c : number) : Prop :=
  exists selected inGrams,
    findCheapestSupplier (ingredient lineItem)
      (GetProductsForIngredient (ingredient lineItem)) = Return selected /\
    convertUnitsWithFallback (unitOfMeasure lineItem) grams mass = Return inGrams /\
    c = mul (uomAmount inGrams) (cost selected).

End FurtherVocabulary.

(** ** Vocabulary of the amounts *)

Section AmountVocabulary.
Context `{Helpers}.

(** The contribution of a nutrient fact to a line item whose required
    quantity is [requiredUoM], of [normalizedMassGrams] grams. *)
Definition contributionIs (requiredUoM : UnitOfMeasure) (normalizedMassGrams : number)
    (fact : NutrientFact) (value : number) : Prop :=
  exists converted,
    convertUnitsWithFallback requiredUoM
      (uomName (quantityPer (GetNutrientFactInBaseUnits fact)))
      (uomType (quantityPer (GetNutrientFactInBaseUnits fact)))
      = Return converted /\
    value = contribution (GetNutrientFactInBaseUnits fact) (uomAmount converted)
              normalizedMassGrams.

(** The facts that, in base units, name the nutrient [name]. *)
Definition factsNaming (name : string) (facts : list NutrientFact) : list NutrientFact :=
  filter (fun fact => nutrientName (GetNutrientFactInBaseUnits fact) = name) facts.

End AmountVocabulary.

(** ** A concrete world for the examples *)

Module Fixture.

Inductive Name : Type := Grams | Millilitres | Kilogram | Cups | Whole.
Inductive Kind : Type := Mass | Volume | Count.

#[global] Instance Name_eq_dec : EqDecision Name.
Proof. solve_decision. Defined.
#[global] Instance Kind_eq_dec : EqDecision Kind.
Proof. solve_decision. Defined.

#[global] Instance units : Units := {|
  UoMName := Name;
  UoMType := Kind;
  grams := Grams;
  millilitres := Millilitres;
  mass := Mass;
  volume := Volume;
|}.

Definition uom (amount : Z) (name : Name) (kind : Kind) : UnitOfMeasure :=
  {| uomAmount := of_Z amount; uomName := name; uomType := kind |}.

(** A [ConvertUnits] over a table of factors: a unit converts to itself
    unchanged and to another unit by the factor the table gives for the pair;
    without an entry the conversion throws, naming the pair. *)
Definition Table : Type := list (Name * Name * Z).

Definition factor (table : Table) (fromName toName : Name) : option Z :=
  snd <$> find (fun e => bool_decide (e.1 = (fromName, toName))) table.

Definition tableConvert (table : Table) (fromUoM : UnitOfMeasure)
    (toName : Name) (toType : Kind) : Result (Name * Name) UnitOfMeasure :=
  if bool_decide (uomName fromUoM = toName) && bool_decide (uomType fromUoM = toType)
  then Return fromUoM
  else match factor table (uomName fromUoM) toName with
       | Some f =>
           Return {| uomAmount := mul (uomAmount fromUoM) (of_Z f);
                     uomName := toName; uomType := toType |}
       | None => Throw (uomName fromUoM, toName)
       end.

(** Helpers over a conversion table and a catalogue of products; nutrient
    facts are taken to be in base units already. *)
Definition helpers (table : Table) (catalogue : Ingredient -> list Product)
    : Helpers := {|
  ExtError := Name * Name;
  ConvertUnits := tableConvert table;
  GetNutrientFactInBaseUnits := fun fact => fact;
  GetProductsForIngredient := catalogue;
|}.

(** Only the conversion of a unit to itself. *)
Definition identityOnly : Table := [].

(** Kilograms to grams, cups to millilitres, and millilitres to grams and
    back at density one. *)
Definition kitchen : Table :=
  [ (Kilogram, Grams, 1000); (Cups, Millilitres, 250);
    (Millilitres, Grams, 1); (Grams, Millilitres, 1) ].

Definition supplierOf (price amount : Z) (name : Name) (kind : Kind) : SupplierProduct :=
  {| supplierPrice := of_Z price; supplierProductUoM := uom amount name kind |}.

Definition factOf (nutrient : string) (amount per : Z) : NutrientFact :=
  {| nutrientName := nutrient;
     quantityAmount := uom amount Grams Mass;
     quantityPer := uom per Grams Mass |}.

Definition named (name : string) : Ingredient := {| ingredientName := name |}.

(** The pantry holds flour, the product of the end-to-end scenario, and
    nothing else. *)
Definition pantry (ingredient : Ingredient) : list Product :=
  if bool_decide (ingredientName ingredient = "Flour"%string)
  then [scenarioProduct] else [].

Definition scenarioHelpers : Helpers := helpers identityOnly pantry.

Definition bread : Recipe := scenarioRecipe "Bread" (named "Flour").

(** A recipe with an ingredient the pantry does not hold. *)
Definition saffronCake : Recipe :=
  {| recipeName := "Saffron cake";
     lineItems := [ {| ingredient := named "Saffron";
                       unitOfMeasure := uom 1 Grams Mass |} ] |}.

(** A supplier who sells by the piece: pieces do not convert to grams. *)
Definition byThePiece : SupplierProduct := supplierOf 3 1 Whole Count.

Definition eggs : Product :=
  {| supplierProducts := [byThePiece]; nutrientFacts := [] |}.

Definition eggsAndFlour : Product :=
  {| supplierProducts := [byThePiece; scenarioSupplier]; nutrientFacts := [] |}.

(** Suppliers at 0.05, 0.03 and 0.08 per gram, and a second product whose
    supplier, selling by the kilogram, also comes to 0.03 per gram. *)
Definition sugarA : Product :=
  {| supplierProducts :=
       [supplierOf 5 100 Grams Mass; supplierOf 3 100 Grams Mass;
        supplierOf 8 100 Grams Mass];
     nutrientFacts := [] |}.

Definition sugarB : Product :=
  {| supplierProducts := [supplierOf 30 1 Kilogram Mass]; nutrientFacts := [] |}.

Definition kitchenHelpers : Helpers := helpers kitchen (fun _ => [sugarA; sugarB]).

(** A product whose nutrients are named by numerals. *)
Definition numbered : Product :=
  {| supplierProducts := [scenarioSupplier];
     nutrientFacts := [factOf "10" 1 100; factOf "9" 2 100] |}.

Definition numberedHelpers : Helpers := helpers identityOnly (fun _ => [numbered]).

(** A supplier whose package is of zero grams, and a line item of zero
    grams. *)
Definition emptyPack : SupplierProduct := supplierOf 2 0 Grams Mass.

Definition air : Product :=
  {| supplierProducts := [emptyPack]; nutrientFacts := [] |}.

(** A package of [-0] grams. *)
Definition negativeZeroPack : SupplierProduct :=
  {| supplierPrice := of_Z 2;
     supplierProductUoM :=
       {| uomAmount := S754_zero true; uomName := Grams; uomType := Mass |} |}.

(** A product with three nutrients, the recipe that asks for 500 g of it, and
    the nutrient map its line item accumulates. *)
Definition muesli : Product :=
  {| supplierProducts := [scenarioSupplier];
     nutrientFacts := [factOf "Zinc" 1 100; factOf "Protein" 10 100; factOf "Iron" 2 100] |}.

Definition muesliHelpers : Helpers := helpers identityOnly (fun _ => [muesli]).

Definition breakfast : Recipe := scenarioRecipe "Breakfast" (named "Muesli").

(** A product one of whose nutrients is named [toString], and its
    selection. *)
Definition oddlyNamed : Product :=
  {| supplierProducts := [scenarioSupplier];
     nutrientFacts := [proteinPer100g 10; factOf "toString" 1 100] |}.

Definition oddlyNamedSelected : SelectedSupplier :=
  {| cost := div (of_Z 2) (of_Z 1000);
     product := oddlyNamed; supplier := scenarioSupplier |}.

(** A [ConvertUnits] over the table of the kitchen that leaves the world, a
    count of something, as it finds it; and one that counts its calls. *)
Definition kitchenConvert (fromUoM : UnitOfMeasure) (toName : Name) (toType : Kind)
    (w : nat) : Result (Name * Name) UnitOfMeasure * nat :=
  (tableConvert kitchen fromUoM toName toType, w).

Definition countingConvert (fromUoM : UnitOfMeasure) (toName : Name) (toType : Kind)
    (calls : nat) : Result (Name * Name) UnitOfMeasure * nat :=
  (tableConvert kitchen fromUoM toName toType, S calls).

(** A map of three nutrients, created as Zinc, Protein, Iron. *)
Definition threeNutrients : JsObject.t NutrientFact :=
  [("Zinc"%string, factOf "Zinc" 1 100);
   ("Protein"%string, factOf "Protein" 2 100);
   ("Iron"%string, factOf "Iron" 3 100)].

(** A recipe without line items. *)
Definition water : Recipe := {| recipeName := "Water"; lineItems := [] |}.

(** A supplier who sells by the cup. *)
Definition byTheCup : SupplierProduct := supplierOf 3 2 Cups Volume.

(** The selection of the scenario, and a map that holds 7 g of protein. *)
Definition scenarioSelected : SelectedSupplier :=
  {| cost := div (of_Z 2) (of_Z 1000);
     product := scenarioProduct; supplier := scenarioSupplier |}.

Definition someProtein : JsObject.t NutrientFact :=
  [("Protein"%string, proteinPer100g 7)].

Definition breadSummary : RecipeSummary :=
  {| cheapestCost := of_Z 1;
     nutrientsAtCheapestCost := [("Protein"%string, proteinPer100g 10)] |}.

(** The map that holds 7 g of protein, after 10 g have been added. *)
Definition moreProtein : JsObject.t NutrientFact :=
  [("Protein"%string,
    {| nutrientName := "Protein";
       quantityAmount :=
         {| uomAmount := add (of_Z 7) (of_Z 10); uomName := Grams; uomType := Mass |};
       quantityPer := uom 100 Grams Mass |})].

End Fixture.

(** * Properties *)

(** ** The order of numbers *)

(** [<] on binary64 values is a strict order off NaN, and [<=] composes with
    it; a comparison with NaN is false. *)

Ltac compare_cases :=
  repeat match goal with
    | H : context [Pos.compare_cont Eq ?a ?b] |- _ =>
        change (Pos.compare_cont Eq a b) with (Pos.compare a b) in H
    | |- context [Pos.compare_cont Eq ?a ?b] =>
        change (Pos.compare_cont Eq a b) with (Pos.compare a b)
    end;
  repeat match goal with
    | H : context [Z.compare ?a ?b] |- _ =>
        destruct (Z.compare_spec a b); simpl in H; try discriminate H
    | H : context [Pos.compare ?a ?b] |- _ =>
        destruct (Pos.compare_spec a b); simpl in H; try discriminate H
    end;
  repeat match goal with
    | |- context [Z.compare ?a ?b] => destruct (Z.compare_spec a b); simpl
    | |- context [Pos.compare ?a ?b] => destruct (Pos.compare_spec a b); simpl
    end;
  subst; try reflexivity; try discriminate; try lia.

Lemma ltb_irrefl (x : number) : ltb x x = false.
Proof.
  unfold ltb, SFltb, SFcompare.
  destruct x as [[]|[]| |[] m e]; try reflexivity; compare_cases.
Qed.

Lemma ltb_trans (x y z : number) :
  ltb x y = true -> ltb y z = true -> ltb x z = true.
Proof.
  unfold ltb, SFltb, SFcompare.
  destruct x as [[]|[]| |[] mx ex], y as [[]|[]| |[] my ey],
    z as [[]|[]| |[] mz ez]; simpl; intros Hxy Hyz;
    try discriminate; try reflexivity; compare_cases.
Qed.

Lemma leb_ltb_trans (x y z : number) :
  leb x y = true -> ltb y z = true -> ltb x z = true.
Proof.
  unfold leb, ltb, SFleb, SFltb, SFcompare.
  destruct x as [[]|[]| |[] mx ex], y as [[]|[]| |[] my ey],
    z as [[]|[]| |[] mz ez]; simpl; intros Hxy Hyz;
    try discriminate; try reflexivity; compare_cases.
Qed.

(** ** Exceptions and loops *)

Lemma forOf_app {E S A} (body : S -> A -> Result E S) (l1 l2 : list A) (s : S) :
  forOf body (l1 ++ l2) s = s' ← forOf body l1 s; forOf body l2 s'.
Proof.
  revert s. induction l1 as [|x l1 IH]; intros s; simpl; [reflexivity|].
  destruct (body s x) as [s'|e]; simpl; [apply IH | reflexivity].
Qed.

(** ** Unit conversion with fallback *)

Section Conversion.
Context `{Helpers}.

Lemma callConvertUnits_Return fromUoM toUoMName toUoMType u :
  ConvertUnits fromUoM toUoMName toUoMType = Return u ->
  callConvertUnits fromUoM toUoMName toUoMType = Return u.
Proof. unfold callConvertUnits. intros ->. reflexivity. Qed.

Lemma callConvertUnits_Throw fromUoM toUoMName toUoMType e :
  ConvertUnits fromUoM toUoMName toUoMType = Throw e ->
  callConvertUnits fromUoM toUoMName toUoMType = Throw (External e).
Proof. unfold callConvertUnits. intros ->. reflexivity. Qed.

(** The error of a three-hop path is the error of its first failing hop. *)
Lemma three_hops_Throw fromUoM hop1 hop2 hop3 e :
  hopFails fromUoM hop1 hop2 hop3 e ->
  (u1 ← callConvertUnits fromUoM hop1.1 hop1.2;
   u2 ← callConvertUnits u1 hop2.1 hop2.2;
   callConvertUnits u2 hop3.1 hop3.2) = Throw (External e).
Proof.
  intros [H1|(u1 & H1 & [H2|(u2 & H2 & H3)])].
  - rewrite (callConvertUnits_Throw _ _ _ _ H1). reflexivity.
  - rewrite (callConvertUnits_Return _ _ _ _ H1). simpl.
    rewrite (callConvertUnits_Throw _ _ _ _ H2). reflexivity.
  - rewrite (callConvertUnits_Return _ _ _ _ H1). simpl.
    rewrite (callConvertUnits_Return _ _ _ _ H2). simpl.
    apply callConvertUnits_Throw, H3.
Qed.

(** What [convertUnitsWithFallback] throws was thrown by [ConvertUnits] or is
    the unsupported-conversion error. *)
Lemma convertUnitsWithFallback_errors fromUoM toUoMName toUoMType err :
  convertUnitsWithFallback fromUoM toUoMName toUoMType = Throw err ->
  (exists e, err = External e) \/
  err = UnsupportedConversion (uomType fromUoM) (uomName fromUoM) toUoMType toUoMName.
Proof.
  unfold convertUnitsWithFallback, handleVolumeToMassConversion,
    handleMassToVolumeConversion, callConvertUnits.
  destruct (ConvertUnits fromUoM toUoMName toUoMType); [discriminate|].
  repeat match goal with
    | |- context [if ?b then _ else _] => destruct b
    | |- context [ConvertUnits ?u ?n ?t] => destruct (ConvertUnits u n t); simpl
    end;
    intros [= <-]; eauto.
Qed.

(** C2. The conversion with fallback first attempts the direct conversion and
    returns its result as it is; when the direct conversion throws and the
    source is a volume and the target a mass, it returns the composition of
    the three direct hops source to millilitres to grams to target; when the
    direct conversion throws and the source is a mass and the target a
    volume, the composition source to grams to millilitres to target. *)
Theorem convertUnitsWithFallback_paths
    (Hdistinct : mass <> volume)
    (fromUoM : UnitOfMeasure) (toUoMName : UoMName) (toUoMType : UoMType) :
  (forall u, ConvertUnits fromUoM toUoMName toUoMType = Return u ->
     convertUnitsWithFallback fromUoM toUoMName toUoMType = Return u) /\
  (forall e, ConvertUnits fromUoM toUoMName toUoMType = Throw e ->
     uomType fromUoM = volume -> toUoMType = mass ->
     convertUnitsWithFallback fromUoM toUoMName toUoMType =
       (volumeInMl ← callConvertUnits fromUoM millilitres volume;
        massInGrams ← callConvertUnits volumeInMl grams mass;
        callConvertUnits massInGrams toUoMName toUoMType)) /\
  (forall e, ConvertUnits fromUoM toUoMName toUoMType = Throw e ->
     uomType fromUoM = mass -> toUoMType = volume ->
     convertUnitsWithFallback fromUoM toUoMName toUoMType =
       (massInGrams ← callConvertUnits fromUoM grams mass;
        volumeInMl ← callConvertUnits massInGrams millilitres volume;
        callConvertUnits volumeInMl toUoMName toUoMType)).
Proof.
  unfold convertUnitsWithFallback. split; [|split].
  - intros u ->. reflexivity.
  - intros e -> Hfrom ->. rewrite Hfrom.
    rewrite !bool_decide_eq_true_2 by reflexivity. reflexivity.
  - intros e -> Hfrom ->. rewrite Hfrom.
    rewrite (bool_decide_eq_false_2 (mass = volume)) by exact Hdistinct. simpl.
    rewrite !bool_decide_eq_true_2 by reflexivity. reflexivity.
Qed.

(** C4, as amended.  When the direct conversion throws and neither fallback
    applies, the conversion throws the unsupported-conversion error, which
    names the kind and unit of the source and of the target.  When a fallback
    applies and one of its hops has no conversion, the conversion throws what
    [ConvertUnits] threw on that hop, as it is. *)
Theorem convertUnitsWithFallback_failure
    (Hdistinct : mass <> volume)
    (fromUoM : UnitOfMeasure) (toUoMName : UoMName) (toUoMType : UoMType)
    (e0 : ExtError)
    (Hdirect : ConvertUnits fromUoM toUoMName toUoMType = Throw e0) :
  (~ (uomType fromUoM = volume /\ toUoMType = mass) ->
   ~ (uomType fromUoM = mass /\ toUoMType = volume) ->
   convertUnitsWithFallback fromUoM toUoMName toUoMType =
     Throw (UnsupportedConversion
              (uomType fromUoM) (uomName fromUoM) toUoMType toUoMName)) /\
  (forall e, uomType fromUoM = volume -> toUoMType = mass ->
   hopFails fromUoM (millilitres, volume) (grams, mass) (toUoMName, mass) e ->
   convertUnitsWithFallback fromUoM toUoMName toUoMType = Throw (External e)) /\
  (forall e, uomType fromUoM = mass -> toUoMType = volume ->
   hopFails fromUoM (grams, mass) (millilitres, volume) (toUoMName, volume) e ->
   convertUnitsWithFallback fromUoM toUoMName toUoMType = Throw (External e)).
Proof.
  unfold convertUnitsWithFallback. rewrite Hdirect. split; [|split].
  - intros Hvm Hmv.
    destruct (bool_decide (uomType fromUoM = volume) && bool_decide (toUoMType = mass))
      eqn:E1.
    { apply andb_prop in E1 as [?%bool_decide_eq_true ?%bool_decide_eq_true].
      tauto. }
    destruct (bool_decide (uomType fromUoM = mass) && bool_decide (toUoMType = volume))
      eqn:E2.
    { apply andb_prop in E2 as [?%bool_decide_eq_true ?%bool_decide_eq_true].
      tauto. }
    reflexivity.
  - intros e Hfrom -> Hhop. rewrite Hfrom.
    rewrite !bool_decide_eq_true_2 by reflexivity. simpl.
    apply (three_hops_Throw _ _ _ _ _ Hhop).
  - intros e Hfrom -> Hhop. rewrite Hfrom.
    rewrite (bool_decide_eq_false_2 (mass = volume)) by exact Hdistinct. simpl.
    rewrite !bool_decide_eq_true_2 by reflexivity. simpl.
    apply (three_hops_Throw _ _ _ _ _ Hhop).
Qed.

End Conversion.

(** ** Cost per gram *)

Section CostPerGram.
Context `{Helpers} {World : Type}.

Variable ConvertUnitsIn :
  UnitOfMeasure -> UoMName -> UoMType -> World -> Result ExtError UnitOfMeasure * World.

(** An ordering of worlds that every call of [ConvertUnits] respects. *)
Variable R : World -> World -> Prop.
Hypothesis Hrefl : forall w, R w w.
Hypothesis Htrans : forall w1 w2 w3, R w1 w2 -> R w2 w3 -> R w1 w3.
Hypothesis Hhelper : forall u n t w, R w (ConvertUnitsIn u n t w).2.

Lemma Stateful_bind_frame {A B} (m : Stateful.Computation A)
    (k : A -> Stateful.Computation B) (w : World) :
  R w (m w).2 -> (forall a w', R w' (k a w').2) -> R w (Stateful.bind m k w).2.
Proof using Htrans.
  unfold Stateful.bind. intros Hm Hk.
  destruct (m w) as [[a|e] w']; simpl in *;
    [exact (Htrans _ _ _ Hm (Hk a w')) | exact Hm].
Qed.

Lemma Stateful_callConvertUnits_frame u n t w :
  R w (Stateful.callConvertUnits ConvertUnitsIn u n t w).2.
Proof using Hhelper.
  unfold Stateful.callConvertUnits. pose proof (Hhelper u n t w) as Hcall.
  destruct (ConvertUnitsIn u n t w) as [[a|e] w']; exact Hcall.
Qed.

Lemma Stateful_handleVolumeToMassConversion_frame u n w :
  R w (Stateful.handleVolumeToMassConversion ConvertUnitsIn u n w).2.
Proof using Htrans Hhelper.
  unfold Stateful.handleVolumeToMassConversion.
  repeat (apply Stateful_bind_frame; [|intros ? ?]);
    apply Stateful_callConvertUnits_frame.
Qed.

Lemma Stateful_handleMassToVolumeConversion_frame u n w :
  R w (Stateful.handleMassToVolumeConversion ConvertUnitsIn u n w).2.
Proof using Htrans Hhelper.
  unfold Stateful.handleMassToVolumeConversion.
  repeat (apply Stateful_bind_frame; [|intros ? ?]);
    apply Stateful_callConvertUnits_frame.
Qed.

(** The conversion with fallback changes the world by its calls of
    [ConvertUnits] and in no other way. *)
Lemma Stateful_convertUnitsWithFallback_frame u n t w :
  R w (Stateful.convertUnitsWithFallback ConvertUnitsIn u n t w).2.
Proof using Hrefl Htrans Hhelper.
  unfold Stateful.convertUnitsWithFallback. pose proof (Hhelper u n t w) as Hcall.
  destruct (ConvertUnitsIn u n t w) as [[a|e] w']; simpl in Hcall; [exact Hcall|].
  destruct (_ && _).
  - exact (Htrans _ _ _ Hcall (Stateful_handleVolumeToMassConversion_frame u n w')).
  - destruct (_ && _).
    + exact (Htrans _ _ _ Hcall (Stateful_handleMassToVolumeConversion_frame u n w')).
    + exact Hcall.
Qed.

(** When the outcome of [ConvertUnits] does not depend on the world, the
    outcomes in a world are those of the functions of the program. *)
Hypothesis Hvalue : forall u n t w, (ConvertUnitsIn u n t w).1 = ConvertUnits u n t.

Lemma Stateful_bind_value {A B} (m : Stateful.Computation A)
    (k : A -> Stateful.Computation B) (pm : Result Error A) (pk : A -> Result Error B)
    (w : World) :
  (m w).1 = pm -> (forall a w', (k a w').1 = pk a) ->
  (Stateful.bind m k w).1 = (pm ≫= pk).
Proof.
  unfold Stateful.bind. intros <- Hk.
  destruct (m w) as [[a|e] w']; simpl; [apply Hk | reflexivity].
Qed.

Lemma Stateful_callConvertUnits_value u n t w :
  (Stateful.callConvertUnits ConvertUnitsIn u n t w).1 = callConvertUnits u n t.
Proof using Hvalue.
  unfold Stateful.callConvertUnits, callConvertUnits. rewrite <- (Hvalue u n t w).
  destruct (ConvertUnitsIn u n t w) as [[a|e] w']; reflexivity.
Qed.

Lemma Stateful_convertUnitsWithFallback_value u n t w :
  (Stateful.convertUnitsWithFallback ConvertUnitsIn u n t w).1
    = convertUnitsWithFallback u n t.
Proof using Hvalue.
  unfold Stateful.convertUnitsWithFallback, convertUnitsWithFallback.
  rewrite <- (Hvalue u n t w).
  destruct (ConvertUnitsIn u n t w) as [[a|e] w']; simpl; [reflexivity|].
  destruct (_ && _).
  - unfold Stateful.handleVolumeToMassConversion, handleVolumeToMassConversion.
    repeat (apply Stateful_bind_value; [|intros ? ?]);
      apply Stateful_callConvertUnits_value.
  - destruct (_ && _); [|reflexivity].
    unfold Stateful.handleMassToVolumeConversion, handleMassToVolumeConversion.
    repeat (apply Stateful_bind_value; [|intros ? ?]);
      apply Stateful_callConvertUnits_value.
Qed.

Lemma Stateful_getNormalizedCost_value supplier w :
  (Stateful.getNormalizedCost ConvertUnitsIn supplier w).1 = getNormalizedCost supplier.
Proof using Hvalue.
  unfold Stateful.getNormalizedCost, getNormalizedCost.
  apply Stateful_bind_value; [apply Stateful_convertUnitsWithFallback_value|].
  reflexivity.
Qed.

End CostPerGram.

Section CostPerGramClaim.
Context `{Helpers}.

(** C7. The normalized cost is the supplier's price divided by the amount of
    the supplier's unit of measure converted to grams by the conversion with
    fallback; when that conversion throws, the computation throws the same
    error.  The computation has no side effects: it leaves the world the
    conversion leaves, and the conversion changes the world by its calls of
    [ConvertUnits] only, so that what every call of [ConvertUnits] respects,
    the computation respects; with a [ConvertUnits] that leaves the world as
    it finds it, so does the computation.  When the outcome of
    [ConvertUnits] does not depend on the world, neither does the cost. *)
Theorem getNormalizedCost_spec
    {World : Type}
    (ConvertUnitsIn :
       UnitOfMeasure -> UoMName -> UoMType -> World -> Result ExtError UnitOfMeasure * World)
    (R : World -> World -> Prop)
    (Hrefl : forall w, R w w)
    (Htrans : forall w1 w2 w3, R w1 w2 -> R w2 w3 -> R w1 w3)
    (Hhelper : forall u n t w, R w (ConvertUnitsIn u n t w).2)
    (supplier : SupplierProduct) (w : World) :
  (forall converted w',
     Stateful.convertUnitsWithFallback ConvertUnitsIn
       (supplierProductUoM supplier) grams mass w = (Return converted, w') ->
     Stateful.getNormalizedCost ConvertUnitsIn supplier w
       = (Return (div (supplierPrice supplier) (uomAmount converted)), w')) /\
  (forall err w',
     Stateful.convertUnitsWithFallback ConvertUnitsIn
       (supplierProductUoM supplier) grams mass w = (Throw err, w') ->
     Stateful.getNormalizedCost ConvertUnitsIn supplier w = (Throw err, w')) /\
  R w (Stateful.getNormalizedCost ConvertUnitsIn supplier w).2 /\
  ((forall u n t w0, (ConvertUnitsIn u n t w0).2 = w0) ->
   (Stateful.getNormalizedCost ConvertUnitsIn supplier w).2 = w) /\
  ((forall u n t w0, (ConvertUnitsIn u n t w0).1 = ConvertUnits u n t) ->
   (Stateful.getNormalizedCost ConvertUnitsIn supplier w).1 = getNormalizedCost supplier /\
   (forall converted,
      convertUnitsWithFallback (supplierProductUoM supplier) grams mass
        = Return converted ->
      (Stateful.getNormalizedCost ConvertUnitsIn supplier w).1
        = Return (div (supplierPrice supplier) (uomAmount converted))) /\
   (forall err,
      convertUnitsWithFallback (supplierProductUoM supplier) grams mass = Throw err ->
      (Stateful.getNormalizedCost ConvertUnitsIn supplier w).1 = Throw err)).
Proof.
  assert (Hframe : forall (Q : World -> World -> Prop),
            (forall w0, Q w0 w0) ->
            (forall w1 w2 w3, Q w1 w2 -> Q w2 w3 -> Q w1 w3) ->
            (forall u n t w0, Q w0 (ConvertUnitsIn u n t w0).2) ->
            Q w (Stateful.getNormalizedCost ConvertUnitsIn supplier w).2).
  { intros Q Hr Ht Hh. unfold Stateful.getNormalizedCost.
    apply (Stateful_bind_frame Q Ht).
    - apply (Stateful_convertUnitsWithFallback_frame ConvertUnitsIn Q Hr Ht Hh).
    - intros a w'. apply Hr. }
  split; [|split; [|split; [|split]]].
  - intros converted w' Hconv. unfold Stateful.getNormalizedCost, Stateful.bind.
    rewrite Hconv. reflexivity.
  - intros err w' Hconv. unfold Stateful.getNormalizedCost, Stateful.bind.
    rewrite Hconv. reflexivity.
  - exact (Hframe R Hrefl Htrans Hhelper).
  - intros Hpure. symmetry. apply (Hframe eq).
    + reflexivity.
    + intros w1 w2 w3 -> ->. reflexivity.
    + intros u n t w0. symmetry. apply Hpure.
  - intros Hvalue.
    pose proof (Stateful_getNormalizedCost_value ConvertUnitsIn Hvalue supplier w)
      as Hcost.
    split; [exact Hcost|]. rewrite Hcost. unfold getNormalizedCost. split.
    + intros converted ->. reflexivity.
    + intros err ->. reflexivity.
Qed.

End CostPerGramClaim.


(** ** Cheapest supplier *)

Section Selection.
Context `{Helpers}.

(** The two nested loops visit the candidates in order. *)
Lemma scan_map_pair product suppliers st :
  scan (map (pair product) suppliers) st
    = forOf (considerSupplier product) suppliers st.
Proof.
  unfold scan. revert st.
  induction suppliers as [|s ss IH]; intros st; simpl; [reflexivity|].
  destruct (considerSupplier product st s); simpl; [apply IH | reflexivity].
Qed.

Lemma scan_candidates availableProducts st :
  forOf (fun st product => forOf (considerSupplier product) (supplierProducts product) st)
    availableProducts st
  = scan (candidates availableProducts) st.
Proof.
  unfold candidates. revert st.
  induction availableProducts as [|p ps IH]; intros st; simpl; [reflexivity|].
  unfold scan at 1. rewrite forOf_app. fold (scan (map (pair p) (supplierProducts p)) st).
  rewrite scan_map_pair.
  destruct (forOf (considerSupplier p) (supplierProducts p) st) as [st'|e]; simpl;
    [apply IH | reflexivity].
Qed.

Lemma findCheapestSupplier_scan ingredient availableProducts :
  findCheapestSupplier ingredient availableProducts =
    st ← scan (candidates availableProducts) (Infinity, None);
    match st.2 with
    | None => Throw (NoSupplierFound (ingredientName ingredient))
    | Some selectedSupplier => Return selectedSupplier
    end.
Proof. unfold findCheapestSupplier. rewrite scan_candidates. reflexivity. Qed.

(** Either every candidate has a cost, or there is a first one whose cost
    computation throws. *)
Lemma costs_or_firstFailure cs :
  (exists costs, Forall2 costIs cs costs) \/ (exists err, firstFailure cs err).
Proof.
  induction cs as [|c cs IH].
  - left. exists []. constructor.
  - destruct (getNormalizedCost c.2) as [k|err] eqn:Hc.
    + destruct IH as [[costs Hall]|(err & pre & c' & post & -> & Hpre & Hc')].
      * left. exists (k :: costs). constructor; assumption.
      * right. exists err, (c :: pre), c', post. split; [reflexivity|].
        split; [|assumption]. constructor; [exists k; exact Hc | assumption].
    + right. exists err, [], c, cs. repeat split; [constructor | assumption].
Qed.

Lemma considerSupplier_Return product st supplier k :
  getNormalizedCost supplier = Return k ->
  considerSupplier product st supplier =
    Return (if ltb k st.1
            then (k, Some {| cost := k; product := product; supplier := supplier |})
            else st).
Proof.
  unfold considerSupplier. intros ->. simpl. destruct (ltb k st.1); reflexivity.
Qed.

Lemma considerSupplier_Throw product st supplier err :
  getNormalizedCost supplier = Throw err ->
  considerSupplier product st supplier = Throw err.
Proof. unfold considerSupplier. intros ->. reflexivity. Qed.

Lemma scan_firstFailure cs st err :
  firstFailure cs err -> scan cs st = Throw err.
Proof.
  intros (pre & c & post & -> & Hpre & Hc). unfold scan. revert st.
  induction Hpre as [|c' pre [k Hk] _ IH]; intros st; simpl.
  - rewrite (considerSupplier_Throw _ _ _ _ Hc). reflexivity.
  - rewrite (considerSupplier_Return _ _ _ _ Hk). simpl. apply IH.
Qed.

Lemma not_true_false (b : bool) : (b = true -> False) -> b = false.
Proof. destruct b; [intros Hb; destruct Hb; reflexivity | reflexivity]. Qed.

Lemma scanned_snoc cs costs st c k :
  length cs = length costs ->
  scanned cs costs st ->
  scanned (cs ++ [c]) (costs ++ [k])
    (if ltb k st.1
     then (k, Some {| cost := k; product := c.1; supplier := c.2 |})
     else st).
Proof.
  intros Hlen Hst. unfold scanned in *.
  assert (Hnew : forall (j : nat) k', (costs ++ [k]) !! j = Some k' ->
            (j < length costs)%nat /\ costs !! j = Some k' \/
            j = length costs /\ k' = k).
  { intros j k' Hj. apply lookup_app_Some in Hj as [Hj|[Hge Hj]].
    - left. split; [eapply lookup_lt_Some; exact Hj | exact Hj].
    - right. apply list_lookup_singleton_Some in Hj as [Hz ->].
      split; [lia | reflexivity]. }
  destruct (ltb k st.1) eqn:Hlt; simpl.
  - split; [reflexivity|]. exists (length cs). split; [|split; [|split; [|split]]]; simpl.
    + rewrite lookup_app_r, Nat.sub_diag by lia. destruct c; reflexivity.
    + rewrite Hlen, lookup_app_r, Nat.sub_diag by lia. reflexivity.
    + destruct st as [m [sel|]]; simpl in *.
      * destruct Hst as [-> (i & _ & _ & Hinf & _)]. eapply ltb_trans; eassumption.
      * destruct Hst as [-> _]. exact Hlt.
    + intros j k' Hj. apply Hnew in Hj as [[_ Hj]|[_ ->]]; [|apply ltb_irrefl].
      apply not_true_false. intros Hk'.
      pose proof (ltb_trans _ _ _ Hk' Hlt) as Hk'm.
      destruct st as [m [sel|]]; simpl in *.
      * destruct Hst as [-> (i & _ & _ & _ & Hmin & _)].
        rewrite (Hmin _ _ Hj) in Hk'm. discriminate.
      * destruct Hst as [-> Hall].
        rewrite Forall_lookup in Hall. rewrite (Hall _ _ Hj) in Hk'm. discriminate.
    + intros j k' Hji Hj. apply Hnew in Hj as [[_ Hj]|[-> _]]; [|lia].
      apply not_true_false. intros Hk'.
      pose proof (leb_ltb_trans _ _ _ Hk' Hlt) as Hk'm.
      destruct st as [m [sel|]]; simpl in *.
      * destruct Hst as [-> (i & _ & _ & _ & Hmin & _)].
        rewrite (Hmin _ _ Hj) in Hk'm. discriminate.
      * destruct Hst as [-> Hall].
        rewrite Forall_lookup in Hall. rewrite (Hall _ _ Hj) in Hk'm. discriminate.
  - destruct st as [m [sel|]]; simpl in *.
    + destruct Hst as [-> (i & Hc & Hk & Hinf & Hmin & Hfirst)].
      split; [reflexivity|]. exists i. split; [|split; [|split; [|split]]].
      * apply lookup_app_l_Some, Hc.
      * apply lookup_app_l_Some, Hk.
      * exact Hinf.
      * intros j k' Hj. apply Hnew in Hj as [[_ Hj]|[_ ->]]; [eauto | exact Hlt].
      * intros j k' Hji Hj. apply Hnew in Hj as [[_ Hj]|[-> ->]]; [eauto|].
        apply lookup_lt_Some in Hk. lia.
    + destruct Hst as [-> Hall]. split; [reflexivity|].
      apply Forall_app. split; [exact Hall|]. constructor; [exact Hlt | constructor].
Qed.

Lemma scan_scanned cs costs :
  Forall2 costIs cs costs ->
  exists st, scan cs (Infinity, None) = Return st /\ scanned cs costs st.
Proof.
  revert costs. induction cs as [|c cs IH] using rev_ind; intros costs Hall.
  - apply Forall2_nil_inv_l in Hall as ->. exists (Infinity, None).
    split; [reflexivity|]. split; [reflexivity | constructor].
  - apply Forall2_app_inv_l in Hall as (costs1 & costs2 & H1 & H2 & ->).
    apply Forall2_cons_inv_l in H2 as (k & costs3 & Hk & Hnil & ->).
    apply Forall2_nil_inv_l in Hnil as ->.
    destruct (IH _ H1) as (st & Hscan & Hst).
    eexists. split.
    + unfold scan in *. rewrite forOf_app, Hscan. simpl.
      rewrite (considerSupplier_Return _ _ _ _ Hk). reflexivity.
    + apply scanned_snoc; [eapply Forall2_length; exact H1 | exact Hst].
Qed.

Lemma getNormalizedCost_errors supplier err :
  getNormalizedCost supplier = Throw err ->
  (exists e, err = External e) \/
  (exists fromType fromName toType toName,
     err = UnsupportedConversion fromType fromName toType toName).
Proof.
  unfold getNormalizedCost.
  destruct (convertUnitsWithFallback (supplierProductUoM supplier) grams mass)
    as [u|err'] eqn:Hc; simpl; [discriminate|].
  intros [= <-]. apply convertUnitsWithFallback_errors in Hc as [? | ->]; eauto 6.
Qed.

(** C3, as amended.  The selection throws the no-supplier error, naming the
    ingredient, exactly when every supplier has a normalized cost and none of
    the costs is below [Infinity]; so it does when there is no supplier at
    all.  When the cost computation of some supplier throws, the selection
    throws the error of the first such supplier, as it is. *)
Theorem findCheapestSupplier_errors
    (ingredient : Ingredient) (availableProducts : list Product) :
  (findCheapestSupplier ingredient availableProducts
     = Throw (NoSupplierFound (ingredientName ingredient)) <->
   exists costs,
     Forall2 costIs (candidates availableProducts) costs /\
     Forall (fun k => ltb k Infinity = false) costs) /\
  (candidates availableProducts = [] ->
   findCheapestSupplier ingredient availableProducts
     = Throw (NoSupplierFound (ingredientName ingredient))) /\
  (forall err, firstFailure (candidates availableProducts) err ->
   findCheapestSupplier ingredient availableProducts = Throw err).
Proof.
  assert (Hcosts : forall costs,
            Forall2 costIs (candidates availableProducts) costs ->
            Forall (fun k => ltb k Infinity = false) costs ->
            findCheapestSupplier ingredient availableProducts
              = Throw (NoSupplierFound (ingredientName ingredient))).
  { intros costs Hall Hinf. rewrite findCheapestSupplier_scan.
    destruct (scan_scanned _ _ Hall) as ([m [sel|]] & Hscan & Hst);
      rewrite Hscan; simpl; [|reflexivity].
    destruct Hst as [_ (i & _ & Hi & Hlt & _)]. simpl in *.
    rewrite Forall_lookup in Hinf. rewrite (Hinf _ _ Hi) in Hlt. discriminate. }
  split; [split|split].
  - rewrite findCheapestSupplier_scan. intros Hthrow.
    destruct (costs_or_firstFailure (candidates availableProducts))
      as [[costs Hall]|[err Hfail]].
    + exists costs. split; [exact Hall|].
      destruct (scan_scanned _ _ Hall) as ([m [sel|]] & Hscan & Hst);
        rewrite Hscan in Hthrow; simpl in Hthrow; [discriminate|].
      apply Hst.
    + rewrite (scan_firstFailure _ _ _ Hfail) in Hthrow. simpl in Hthrow.
      destruct Hfail as (pre & c & post & _ & _ & Hc).
      apply getNormalizedCost_errors in Hc as [[e ->]|(ft & fn & tt & tn & ->)];
        discriminate.
  - intros (costs & Hall & Hinf). exact (Hcosts costs Hall Hinf).
  - intros Hnil. apply (Hcosts []); [rewrite Hnil|]; constructor.
  - intros err Hfail. rewrite findCheapestSupplier_scan.
    rewrite (scan_firstFailure _ _ _ Hfail). reflexivity.
Qed.

(** C6, as amended.  When every supplier has a normalized cost and at least
    one cost is below [Infinity], the selection returns a supplier, with its
    product and its cost, such that no supplier has a lower cost; among the
    suppliers of that cost it is the first in the order of the iteration:
    products in list order, the suppliers of a product in list order. *)
Theorem findCheapestSupplier_minimum
    (ingredient : Ingredient) (availableProducts : list Product)
    (costs : list number)
    (Hcosts : Forall2 costIs (candidates availableProducts) costs)
    (Hfinite : Exists (fun k => ltb k Infinity = true) costs) :
  exists i sel,
    findCheapestSupplier ingredient availableProducts = Return sel /\
    selects (candidates availableProducts) costs i sel.
Proof.
  rewrite findCheapestSupplier_scan.
  destruct (scan_scanned _ _ Hcosts) as ([m [sel|]] & Hscan & Hst);
    rewrite Hscan; simpl.
  - destruct Hst as [_ [i Hi]]. exists i, sel. split; [reflexivity | exact Hi].
  - destruct Hst as [_ Hall]. simpl in Hall.
    apply Exists_exists in Hfinite as (k & Hk & Hlt).
    rewrite Forall_forall in Hall. rewrite (Hall _ Hk) in Hlt. discriminate.
Qed.

End Selection.

(** ** Objects used as dictionaries *)

Section JsObjectFacts.
Context {V : Type}.
Implicit Types (o : JsObject.t V) (k : string) (v : V).

Lemma get_set_eq o k v : JsObject.get (JsObject.set o k v) k = Some v.
Proof.
  induction o as [|[k' v'] o IH]; simpl.
  - rewrite bool_decide_eq_true_2 by reflexivity. reflexivity.
  - destruct (bool_decide (k' = k)) eqn:E; simpl; rewrite E; [reflexivity | exact IH].
Qed.

Lemma get_set_ne o k v other :
  other <> k -> JsObject.get (JsObject.set o k v) other = JsObject.get o other.
Proof.
  intros Hne. induction o as [|[k' v'] o IH]; simpl.
  - rewrite bool_decide_eq_false_2 by congruence. reflexivity.
  - destruct (bool_decide (k' = k)) eqn:E; simpl.
    + apply bool_decide_eq_true in E as ->.
      rewrite !bool_decide_eq_false_2 by congruence. reflexivity.
    + rewrite IH. reflexivity.
Qed.

Lemma get_update_eq o k f :
  JsObject.get (JsObject.update o k f) k = f <$> JsObject.get o k.
Proof.
  induction o as [|[k' v'] o IH]; simpl; [reflexivity|].
  destruct (bool_decide (k' = k)) eqn:E; simpl; rewrite E; [reflexivity | exact IH].
Qed.

Lemma get_update_ne o k f other :
  other <> k -> JsObject.get (JsObject.update o k f) other = JsObject.get o other.
Proof.
  intros Hne. induction o as [|[k' v'] o IH]; simpl; [reflexivity|].
  destruct (bool_decide (k' = k)) eqn:E; simpl.
  - apply bool_decide_eq_true in E as ->.
    rewrite !bool_decide_eq_false_2 by congruence. reflexivity.
  - rewrite IH. reflexivity.
Qed.

End JsObjectFacts.

(** ** Nutrient contribution *)

Section Contribution.
Context `{Helpers}.

(** The read [o[k]] gives an entry exactly when the object owns the name. *)
Lemma read_Own {V} (o : JsObject.t V) name v :
  JsObject.get o name = Some v -> JsObject.read o name = JsObject.Own v.
Proof. unfold JsObject.read. intros ->. reflexivity. Qed.

Lemma read_Undefined {V} (o : JsObject.t V) name :
  JsObject.get o name = None -> JsObject.inherited name = false ->
  JsObject.read o name = JsObject.Undefined.
Proof. unfold JsObject.read. intros -> ->. reflexivity. Qed.

Lemma read_Inherited {V} (o : JsObject.t V) name :
  JsObject.get o name = None -> JsObject.inherited name = true ->
  JsObject.read o name = JsObject.Inherited.
Proof. unfold JsObject.read. intros -> ->. reflexivity. Qed.

(** One round of the loop, read from its result. *)
Lemma accumulateNutrient_Return requiredUoM normalizedAmount nutrientMap fact nutrientMap' :
  accumulateNutrient requiredUoM normalizedAmount nutrientMap fact = Return nutrientMap' ->
  exists converted,
    convertUnitsWithFallback requiredUoM
      (uomName (quantityPer (GetNutrientFactInBaseUnits fact)))
      (uomType (quantityPer (GetNutrientFactInBaseUnits fact)))
      = Return converted /\
    nutrientMap' =
      JsObject.update
        (match JsObject.get nutrientMap
                 (nutrientName (GetNutrientFactInBaseUnits fact)) with
         | None =>
             JsObject.set nutrientMap (nutrientName (GetNutrientFactInBaseUnits fact))
               (initialEntry (GetNutrientFactInBaseUnits fact))
         | Some _ => nutrientMap
         end)
        (nutrientName (GetNutrientFactInBaseUnits fact))
        (addToAmount
           (contribution (GetNutrientFactInBaseUnits fact) (uomAmount converted)
              normalizedAmount)).
Proof.
  unfold accumulateNutrient. intros Hstep.
  destruct (convertUnitsWithFallback requiredUoM
              (uomName (quantityPer (GetNutrientFactInBaseUnits fact)))
              (uomType (quantityPer (GetNutrientFactInBaseUnits fact))))
    as [converted|]; [|discriminate].
  exists converted. split; [reflexivity|].
  cbv zeta in Hstep. cbn [mbind Result_bind] in Hstep.
  destruct (JsObject.get nutrientMap (nutrientName (GetNutrientFactInBaseUnits fact)))
    as [held|] eqn:Hheld.
  - rewrite (read_Own _ _ _ Hheld) in Hstep. cbv iota in Hstep.
    rewrite (read_Own _ _ _ Hheld) in Hstep. injection Hstep as <-. reflexivity.
  - destruct (JsObject.inherited (nutrientName (GetNutrientFactInBaseUnits fact)))
      eqn:Hname.
    + rewrite (read_Inherited _ _ Hheld Hname) in Hstep. cbv iota in Hstep.
      rewrite (read_Inherited _ _ Hheld Hname) in Hstep. discriminate.
    + rewrite (read_Undefined _ _ Hheld Hname) in Hstep. cbv iota in Hstep.
      rewrite (read_Own _ _ _ (get_set_eq _ _ _)) in Hstep.
      injection Hstep as <-. reflexivity.
Qed.

(** One round of the loop returns when the conversion does and the name of
    the nutrient is not one of [Object.prototype], or the map holds it. *)
Lemma accumulateNutrient_returns requiredUoM normalizedAmount nutrientMap fact converted :
  let baseFact := GetNutrientFactInBaseUnits fact in
  convertUnitsWithFallback requiredUoM
    (uomName (quantityPer baseFact)) (uomType (quantityPer baseFact))
    = Return converted ->
  JsObject.read nutrientMap (nutrientName baseFact) <> JsObject.Inherited ->
  exists nutrientMap',
    accumulateNutrient requiredUoM normalizedAmount nutrientMap fact = Return nutrientMap'.
Proof.
  intros baseFact Hconv Hname. unfold accumulateNutrient. fold baseFact.
  rewrite Hconv. cbv zeta. cbn [mbind Result_bind].
  destruct (JsObject.read nutrientMap (nutrientName baseFact)) as [held| |] eqn:Hread.
  - rewrite Hread. eexists. reflexivity.
  - contradiction.
  - rewrite (read_Own _ _ _ (get_set_eq _ _ _)). eexists. reflexivity.
Qed.

(** A name of [Object.prototype] that the map does not hold: the round
    throws the [TypeError] of line 221 once the conversion has returned. *)
Lemma accumulateNutrient_TypeError requiredUoM normalizedAmount nutrientMap fact converted :
  let baseFact := GetNutrientFactInBaseUnits fact in
  convertUnitsWithFallback requiredUoM
    (uomName (quantityPer baseFact)) (uomType (quantityPer baseFact))
    = Return converted ->
  JsObject.read nutrientMap (nutrientName baseFact) = JsObject.Inherited ->
  accumulateNutrient requiredUoM normalizedAmount nutrientMap fact = Throw TypeError.
Proof.
  intros baseFact Hconv Hname. unfold accumulateNutrient. fold baseFact.
  rewrite Hconv. cbv zeta. cbn [mbind Result_bind]. rewrite Hname. cbv iota.
  rewrite Hname. reflexivity.
Qed.

(** The map after a round adds the contribution to the entry of the
    nutrient. *)
Lemma stored_Adds (nutrientMap : JsObject.t NutrientFact) baseFact value :
  Adds nutrientMap (nutrientName baseFact) value
    (JsObject.update
       (match JsObject.get nutrientMap (nutrientName baseFact) with
        | None => JsObject.set nutrientMap (nutrientName baseFact) (initialEntry baseFact)
        | Some _ => nutrientMap
        end)
       (nutrientName baseFact) (addToAmount value)).
Proof.
  unfold Adds, amountOf.
  destruct (JsObject.get nutrientMap (nutrientName baseFact)) as [entry|] eqn:Hget.
  - rewrite get_update_eq, Hget. simpl. split; [eauto|]. split; [reflexivity|].
    intros other Hother. apply get_update_ne, Hother.
  - rewrite get_update_eq, get_set_eq. simpl. split; [eauto|]. split; [reflexivity|].
    intros other Hother. rewrite get_update_ne, get_set_ne by exact Hother.
    reflexivity.
Qed.

(** One round of the loop that returns has added the contribution of the
    fact to the entry of its nutrient. *)
Lemma accumulateNutrient_Return_Adds requiredUoM normalizedAmount nutrientMap fact
    nutrientMap' :
  let baseFact := GetNutrientFactInBaseUnits fact in
  accumulateNutrient requiredUoM normalizedAmount nutrientMap fact = Return nutrientMap' ->
  exists converted,
    convertUnitsWithFallback requiredUoM
      (uomName (quantityPer baseFact)) (uomType (quantityPer baseFact))
      = Return converted /\
    Adds nutrientMap (nutrientName baseFact)
      (contribution baseFact (uomAmount converted) normalizedAmount) nutrientMap'.
Proof.
  intros baseFact Hstep.
  destruct (accumulateNutrient_Return _ _ _ _ _ Hstep) as (converted & Hconv & ->).
  exists converted. split; [exact Hconv | apply stored_Adds].
Qed.

(** One round of the loop over the nutrient facts adds the contribution of
    the fact to the entry of its nutrient. *)
Lemma accumulateNutrient_Adds requiredUoM normalizedAmount nutrientMap fact converted :
  let baseFact := GetNutrientFactInBaseUnits fact in
  convertUnitsWithFallback requiredUoM
    (uomName (quantityPer baseFact)) (uomType (quantityPer baseFact))
    = Return converted ->
  JsObject.read nutrientMap (nutrientName baseFact) <> JsObject.Inherited ->
  exists nutrientMap',
    accumulateNutrient requiredUoM normalizedAmount nutrientMap fact
      = Return nutrientMap' /\
    Adds nutrientMap (nutrientName baseFact)
      (contribution baseFact (uomAmount converted) normalizedAmount) nutrientMap'.
Proof.
  intros baseFact Hconv Hname.
  destruct (accumulateNutrient_returns requiredUoM normalizedAmount nutrientMap fact
              converted Hconv Hname) as [nutrientMap' Hstep].
  exists nutrientMap'. split; [exact Hstep|].
  destruct (accumulateNutrient_Return_Adds _ _ _ _ _ Hstep) as (converted' & Hconv' & Hadds).
  fold baseFact in Hconv'. rewrite Hconv in Hconv'. injection Hconv' as <-.
  exact Hadds.
Qed.

(** A name that [Object.prototype] does not hold is not read from it. *)
Lemma read_not_Inherited {V} (o : JsObject.t V) name :
  JsObject.inherited name = false -> JsObject.read o name <> JsObject.Inherited.
Proof.
  unfold JsObject.read. intros ->. destruct (JsObject.get o name); discriminate.
Qed.

(** X19. When the required quantity converts to grams and into the unit of
    each fact's [quantityPer], and no fact of the selected product, in base
    units, is named by a property name of [Object.prototype], the
    accumulation adds, for each nutrient fact of the selected product taken
    in base units, the spec's contribution
    [(totalNutrientForIngredient / normalizedMassGrams) * quantityPer.amount]
    to the amount of the map's entry for the nutrient, and returns
    [normalizedMassGrams * selectedSupplier.cost], where [normalizedMassGrams]
    is the amount of the required quantity converted to grams. *)
Theorem calculateNutrientContribution_spec
    (requiredUoM : UnitOfMeasure) (selectedSupplier : SelectedSupplier)
    (nutrientMap : JsObject.t NutrientFact) (inGrams : UnitOfMeasure)
    (Hgrams : convertUnitsWithFallback requiredUoM grams mass = Return inGrams)
    (Hfacts : Forall
       (fun fact =>
          let baseFact := GetNutrientFactInBaseUnits fact in
          exists converted,
            convertUnitsWithFallback requiredUoM
              (uomName (quantityPer baseFact)) (uomType (quantityPer baseFact))
              = Return converted)
       (nutrientFacts (product selectedSupplier)))
    (Hnames : Forall
       (fun fact =>
          JsObject.inherited (nutrientName (GetNutrientFactInBaseUnits fact)) = false)
       (nutrientFacts (product selectedSupplier))) :
  let normalizedMassGrams := uomAmount inGrams in
  exists nutrientMap',
    calculateNutrientContribution requiredUoM selectedSupplier nutrientMap
      = Return (nutrientMap', mul normalizedMassGrams (cost selectedSupplier)) /\
    Accumulated requiredUoM normalizedMassGrams
      (nutrientFacts (product selectedSupplier)) nutrientMap nutrientMap'.
Proof.
  intros normalizedMassGrams. unfold calculateNutrientContribution.
  rewrite Hgrams. simpl. fold normalizedMassGrams.
  assert (Hloop : exists nutrientMap',
            forOf (accumulateNutrient requiredUoM normalizedMassGrams)
              (nutrientFacts (product selectedSupplier)) nutrientMap
              = Return nutrientMap' /\
            Accumulated requiredUoM normalizedMassGrams
              (nutrientFacts (product selectedSupplier)) nutrientMap nutrientMap').
  { clear Hgrams. revert nutrientMap Hnames.
    induction Hfacts as [|fact facts [converted Hconv] _ IH];
      intros nutrientMap Hnames.
    - exists nutrientMap. split; [reflexivity | constructor].
    - apply Forall_cons in Hnames as [Hname Hnames].
      destruct (accumulateNutrient_Adds requiredUoM normalizedMassGrams
                  nutrientMap fact converted Hconv (read_not_Inherited _ _ Hname))
        as (m1 & Hstep & Hadds).
      destruct (IH m1 Hnames) as (m' & Hrest & Hacc).
      exists m'. split.
      + simpl. rewrite Hstep. simpl. exact Hrest.
      + econstructor; eassumption. }
  destruct Hloop as (m' & Hloop & Hacc). exists m'.
  rewrite Hloop. simpl. split; [reflexivity | exact Hacc].
Qed.

(** C5, where the code departs from it.  A nutrient fact that, in base
    units, is named by a property name of [Object.prototype] that the map
    does not hold, such as [toString]: when the required quantity converts
    to grams and into the unit of the fact, and the accumulation has
    returned for the facts before it, the function adds nothing for the fact
    and returns no cost: it throws the [TypeError] of line 221. *)
Theorem calculateNutrientContribution_inherited_name
    (requiredUoM : UnitOfMeasure) (selectedSupplier : SelectedSupplier)
    (nutrientMap nutrientMap1 : JsObject.t NutrientFact)
    (inGrams converted : UnitOfMeasure)
    (before after : list NutrientFact) (fact : NutrientFact)
    (Hgrams : convertUnitsWithFallback requiredUoM grams mass = Return inGrams)
    (Hfacts : nutrientFacts (product selectedSupplier) = before ++ fact :: after)
    (Hbefore : forOf (accumulateNutrient requiredUoM (uomAmount inGrams)) before nutrientMap
                 = Return nutrientMap1)
    (Hconv : convertUnitsWithFallback requiredUoM
               (uomName (quantityPer (GetNutrientFactInBaseUnits fact)))
               (uomType (quantityPer (GetNutrientFactInBaseUnits fact)))
               = Return converted)
    (Hname : JsObject.inherited (nutrientName (GetNutrientFactInBaseUnits fact)) = true)
    (Hfresh : JsObject.get nutrientMap1 (nutrientName (GetNutrientFactInBaseUnits fact))
                = None) :
  calculateNutrientContribution requiredUoM selectedSupplier nutrientMap = Throw TypeError.
Proof.
  unfold calculateNutrientContribution. rewrite Hgrams. cbn [mbind Result_bind].
  rewrite Hfacts, forOf_app, Hbefore. cbn [mbind Result_bind forOf].
  rewrite (accumulateNutrient_TypeError _ _ _ _ _ Hconv
             (read_Inherited _ _ Hfresh Hname)).
  reflexivity.
Qed.

End Contribution.

(** ** Recipe summary *)

Section Summary.
Context `{Helpers}.

(** The body of the loop over the recipes, when the recipe has a summary and
    when it has none. *)
Lemma calculateRecipeSummary_snoc_Return before recipe summary s :
  calculateRecipeSummary before = Return summary ->
  summarizeRecipe recipe = Return s ->
  calculateRecipeSummary (before ++ [recipe])
    = Return (JsObject.set summary (recipeName recipe) s).
Proof.
  unfold calculateRecipeSummary. intros Hbefore Hs.
  rewrite forOf_app, Hbefore. simpl. rewrite Hs. reflexivity.
Qed.

Lemma calculateRecipeSummary_Forall before :
  Forall (fun r => exists s, summarizeRecipe r = Return s) before ->
  exists summary, calculateRecipeSummary before = Return summary.
Proof.
  induction before as [|r before IH] using rev_ind; intros Hall.
  - exists JsObject.empty. reflexivity.
  - apply Forall_app in Hall as [Hbefore Hr].
    apply Forall_cons in Hr as [[s Hs] _].
    destruct (IH Hbefore) as [summary Hsummary].
    eexists. apply calculateRecipeSummary_snoc_Return; eassumption.
Qed.

(** C9, as amended.  When the processing of a recipe of the list throws, the
    recipes before it having been summarized, the error reaches the caller
    and ends the whole call: no mapping is returned, so no recipe of the list
    gets a summary, the failed one included. *)
Theorem calculateRecipeSummary_failure
    (before after : list Recipe) (recipe : Recipe) (err : Error)
    (Hbefore : Forall (fun r => exists s, summarizeRecipe r = Return s) before)
    (Hfail : summarizeRecipe recipe = Throw err) :
  calculateRecipeSummary (before ++ recipe :: after) = Throw err.
Proof.
  destruct (calculateRecipeSummary_Forall before Hbefore) as [summary Hsummary].
  unfold calculateRecipeSummary in *.
  rewrite forOf_app, Hsummary. simpl. rewrite Hfail. reflexivity.
Qed.

(** X20. A recipe without line items, of a name other than [__proto__], is
    summarized: its entry is the cost 0 with the empty nutrient mapping, alone
    in the mapping when the recipe is alone in the list, and added to the
    mapping of the recipes before it otherwise.  The empty list of recipes
    gives the empty mapping. *)
Theorem calculateRecipeSummary_no_line_items
    (name : string) (Hname : name <> "__proto__"%string) :
  let recipe := {| recipeName := name; lineItems := [] |} in
  let entry := {| cheapestCost := zero; nutrientsAtCheapestCost := JsObject.empty |} in
  calculateRecipeSummary [] = Return JsObject.empty /\
  summarizeRecipe recipe = Return entry /\
  calculateRecipeSummary [recipe] = Return [(name, entry)] /\
  forall before summary,
    calculateRecipeSummary before = Return summary ->
    calculateRecipeSummary (before ++ [recipe])
      = Return (JsObject.set summary name entry) /\
    JsObject.get (JsObject.set summary name entry) name = Some entry.
Proof.
  intros recipe entry. split; [reflexivity|].
  assert (Hentry : summarizeRecipe recipe = Return entry) by reflexivity.
  split; [exact Hentry|]. split; [reflexivity|].
  intros before summary Hbefore. split.
  - apply (calculateRecipeSummary_snoc_Return before recipe summary entry Hbefore Hentry).
  - apply get_set_eq.
Qed.

End Summary.

(** ** The end-to-end scenario *)

Section Scenario.
Context `{Helpers}.





End Scenario.

(** ** Alphabetical order *)

Section Alphabetical.
Context `{Helpers}.
Implicit Types (nutrientMap : JsObject.t NutrientFact) (name : string).

Lemma keys_Permutation {V} (o : JsObject.t V) : JsObject.keys o ≡ₚ o.*1.
Proof.
  unfold JsObject.keys. rewrite merge_sort_Permutation.
  apply filter_app_complement.
Qed.

Lemma get_None {V} (o : JsObject.t V) name :
  JsObject.get o name = None <-> name ∉ o.*1.
Proof.
  induction o as [|[k v] o IH]; csimpl.
  - split; [intros _; apply not_elem_of_nil | reflexivity].
  - rewrite not_elem_of_cons. destruct (bool_decide (k = name)) eqn:E.
    + apply bool_decide_eq_true in E. split; [discriminate|].
      intros [Hne _]. destruct Hne. symmetry. exact E.
    + apply bool_decide_eq_false in E. rewrite IH. split; [|tauto].
      intros Hnotin. split; [|exact Hnotin]. intros ->. apply E. reflexivity.
Qed.

Lemma set_names_new {V} (o : JsObject.t V) name v :
  name ∉ o.*1 -> (JsObject.set o name v).*1 = o.*1 ++ [name].
Proof.
  induction o as [|[k v'] o IH]; csimpl; [reflexivity|].
  rewrite not_elem_of_cons. intros [Hne Hnotin].
  rewrite bool_decide_eq_false_2 by congruence. csimpl. rewrite IH by exact Hnotin.
  reflexivity.
Qed.

Lemma reinsert_get nutrientMap names ordered name :
  JsObject.get (reinsert nutrientMap names ordered) name =
    if decide (name ∈ names)
    then match JsObject.get nutrientMap name with
         | Some fact => Some fact
         | None => JsObject.get ordered name
         end
    else JsObject.get ordered name.
Proof.
  unfold reinsert. revert ordered.
  induction names as [|k names IH]; intros ordered; cbn [fold_left].
  - destruct (decide (name ∈ [])) as [Hin|_]; [|reflexivity].
    apply elem_of_nil in Hin. destruct Hin.
  - rewrite IH. destruct (decide (k = name)) as [->|Hne].
    + destruct (decide (name ∈ name :: names)) as [_|Hnotin];
        [|destruct Hnotin; apply elem_of_cons; left; reflexivity].
      destruct (JsObject.get nutrientMap name) as [fact|] eqn:Hget.
      * destruct (decide (name ∈ names)); [reflexivity | apply get_set_eq].
      * destruct (decide (name ∈ names)); reflexivity.
    + assert (Hother : JsObject.get
                (match JsObject.get nutrientMap k with
                 | Some fact => JsObject.set ordered k fact
                 | None => ordered
                 end) name = JsObject.get ordered name).
      { destruct (JsObject.get nutrientMap k);
          [apply get_set_ne; congruence | reflexivity]. }
      rewrite Hother.
      destruct (decide (name ∈ names)) as [Hin|Hnotin];
        destruct (decide (name ∈ k :: names)) as [Hin'|Hnotin']; try reflexivity.
      * destruct Hnotin'. apply elem_of_cons. right. exact Hin.
      * apply elem_of_cons in Hin' as [->|Hin']; [congruence | tauto].
Qed.

Lemma reinsert_names nutrientMap names ordered :
  NoDup names ->
  Forall (fun name => name ∈ nutrientMap.*1 /\ name ∉ ordered.*1) names ->
  (reinsert nutrientMap names ordered).*1 = ordered.*1 ++ names.
Proof.
  unfold reinsert. revert ordered.
  induction names as [|k names IH]; intros ordered Hnodup Hall; simpl.
  - rewrite app_nil_r. reflexivity.
  - apply NoDup_cons in Hnodup as [Hk Hnodup].
    apply Forall_cons in Hall as [[Hin Hnotin] Hall].
    destruct (JsObject.get nutrientMap k) as [fact|] eqn:Hget.
    + rewrite IH.
      * rewrite set_names_new by exact Hnotin. rewrite <- app_assoc. reflexivity.
      * exact Hnodup.
      * rewrite Forall_forall in Hall |- *. intros name Hname.
        destruct (Hall name Hname) as [H1 H2]. split; [exact H1|].
        rewrite set_names_new by exact Hnotin. rewrite elem_of_app, list_elem_of_singleton.
        intros [?| ->]; [tauto | exact (Hk Hname)].
    + apply get_None in Hget. tauto.
Qed.

(** Without array-index names, [Object.keys] is the order of creation. *)
Lemma keys_no_index {V} (o : JsObject.t V) :
  Forall (fun name => JsObject.arrayIndex name = None) o.*1 ->
  JsObject.keys o = o.*1.
Proof.
  intros Hall. unfold JsObject.keys.
  assert (Hno : Forall (fun name => JsObject.isArrayIndex name <> true) o.*1).
  { eapply Forall_impl; [exact Hall|]. intros name Hname.
    unfold JsObject.isArrayIndex. rewrite Hname. discriminate. }
  clear Hall. induction Hno as [|name names Hname Hnames IH]; [reflexivity|].
  rewrite !filter_cons. rewrite decide_False by (intros Ht; exact (Hname Ht)).
  rewrite decide_True by exact Hname.
  destruct (filter (fun k => JsObject.isArrayIndex k = true) names) eqn:E.
  - simpl in *. rewrite IH. reflexivity.
  - exfalso. assert (Hin : s ∈ filter (fun k => JsObject.isArrayIndex k = true) names)
      by (rewrite E; apply elem_of_cons; left; reflexivity).
    apply list_elem_of_filter in Hin as [Hs Hin].
    rewrite Forall_forall in Hnames. exact (Hnames s Hin Hs).
Qed.

Lemma sortNutrientsAlphabetically_get nutrientMap name :
  JsObject.get (sortNutrientsAlphabetically nutrientMap) name
    = JsObject.get nutrientMap name.
Proof.
  unfold sortNutrientsAlphabetically.
  fold (reinsert nutrientMap (JsObject.sort (JsObject.keys nutrientMap)) JsObject.empty).
  rewrite reinsert_get. simpl.
  destruct (decide (name ∈ JsObject.sort (JsObject.keys nutrientMap))) as [Hin|Hnotin].
  - destruct (JsObject.get nutrientMap name); reflexivity.
  - symmetry. apply get_None.
    unfold JsObject.sort in Hnotin.
    rewrite merge_sort_Permutation, keys_Permutation in Hnotin. exact Hnotin.
Qed.

(** X1. Under every name other than [__proto__], the sorted map holds the
    entry the map holds, and nothing when the map holds nothing. *)
Theorem sortNutrientsAlphabetically_entries nutrientMap name
    (Hname : name <> "__proto__"%string) :
  JsObject.get (sortNutrientsAlphabetically nutrientMap) name
    = JsObject.get nutrientMap name.
Proof. apply sortNutrientsAlphabetically_get. Qed.

(** When no nutrient is named by an array index, the names of the sorted map
    iterate in ascending order: they are the names of the map, sorted. *)
Lemma sortNutrientsAlphabetically_sorted nutrientMap
    (Hobject : NoDup nutrientMap.*1)
    (Hnames : Forall (fun name => JsObject.arrayIndex name = None) nutrientMap.*1) :
  JsObject.keys (sortNutrientsAlphabetically nutrientMap)
    = JsObject.sort (JsObject.keys nutrientMap) /\
  StronglySorted String.le (JsObject.keys (sortNutrientsAlphabetically nutrientMap)) /\
  JsObject.keys (sortNutrientsAlphabetically nutrientMap) ≡ₚ JsObject.keys nutrientMap.
Proof.
  assert (Hkeys : JsObject.keys (sortNutrientsAlphabetically nutrientMap)
                    = JsObject.sort (JsObject.keys nutrientMap)).
  { rewrite (keys_no_index nutrientMap Hnames).
    assert (Hperm : JsObject.sort nutrientMap.*1 ≡ₚ nutrientMap.*1)
      by apply merge_sort_Permutation.
    assert (Hfst : (sortNutrientsAlphabetically nutrientMap).*1
                     = JsObject.sort nutrientMap.*1).
    { unfold sortNutrientsAlphabetically.
      rewrite (keys_no_index nutrientMap Hnames).
      fold (reinsert nutrientMap (JsObject.sort nutrientMap.*1) JsObject.empty).
      rewrite reinsert_names; [reflexivity | rewrite Hperm; exact Hobject |].
      rewrite Forall_forall. intros name Hname. rewrite Hperm in Hname.
      split; [exact Hname | apply not_elem_of_nil]. }
    rewrite keys_no_index; [exact Hfst|].
    rewrite Hfst, Hperm. exact Hnames. }
  rewrite Hkeys. split; [reflexivity|]. split.
  - apply StronglySorted_merge_sort; apply _.
  - apply merge_sort_Permutation.
Qed.

Lemma set_names_old {V} (o : JsObject.t V) name v :
  name ∈ o.*1 -> (JsObject.set o name v).*1 = o.*1.
Proof.
  induction o as [|[k v'] o IH]; csimpl.
  - intros Hin. apply elem_of_nil in Hin. destruct Hin.
  - destruct (bool_decide (k = name)) eqn:E; csimpl; [reflexivity|].
    apply bool_decide_eq_false in E. rewrite elem_of_cons.
    intros [->|Hin]; [destruct E; reflexivity|]. rewrite IH by exact Hin. reflexivity.
Qed.

Lemma update_names {V} (o : JsObject.t V) name f :
  (JsObject.update o name f).*1 = o.*1.
Proof.
  induction o as [|[k v'] o IH]; csimpl; [reflexivity|].
  destruct (bool_decide (k = name)); csimpl; [reflexivity|]. rewrite IH. reflexivity.
Qed.

Lemma set_NoDup {V} (o : JsObject.t V) name v :
  NoDup o.*1 -> NoDup (JsObject.set o name v).*1.
Proof.
  intros Hnodup. destruct (decide (name ∈ o.*1)) as [Hin|Hnotin].
  - rewrite set_names_old by exact Hin. exact Hnodup.
  - rewrite set_names_new by exact Hnotin. apply NoDup_app.
    split; [exact Hnodup|]. split; [|apply NoDup_singleton].
    intros k Hk Hk'. apply list_elem_of_singleton in Hk' as ->. exact (Hnotin Hk).
Qed.

(** An invariant of the variables of a loop holds when the loop ends. *)
Lemma forOf_invariant {E S A} (P : S -> Prop) (body : S -> A -> Result E S)
    (l : list A) (s s' : S) :
  (forall s x s', P s -> body s x = Return s' -> P s') ->
  P s -> forOf body l s = Return s' -> P s'.
Proof.
  intros Hbody. revert s. induction l as [|x l IH]; intros s Hs; simpl.
  - intros [= <-]. exact Hs.
  - destruct (body s x) as [s1|e] eqn:Hx; simpl; [|discriminate].
    apply IH. exact (Hbody s x s1 Hs Hx).
Qed.

(** The nutrient map of a recipe is an object: no name occurs twice. *)
Lemma accumulateNutrient_NoDup requiredUoM normalizedAmount nutrientMap fact nutrientMap' :
  NoDup nutrientMap.*1 ->
  accumulateNutrient requiredUoM normalizedAmount nutrientMap fact = Return nutrientMap' ->
  NoDup nutrientMap'.*1.
Proof.
  intros Hnodup Hstep.
  destruct (accumulateNutrient_Return _ _ _ _ _ Hstep) as (converted & _ & ->).
  rewrite update_names.
  destruct (JsObject.get nutrientMap _); [exact Hnodup | apply set_NoDup, Hnodup].
Qed.

Lemma processLineItem_NoDup st lineItem st' :
  NoDup st.2.*1 -> processLineItem st lineItem = Return st' -> NoDup st'.2.*1.
Proof.
  unfold processLineItem. intros Hnodup.
  destruct (findCheapestSupplier _ _) as [selected|]; simpl; [|discriminate].
  unfold calculateNutrientContribution.
  destruct (convertUnitsWithFallback _ grams mass) as [converted|]; simpl; [|discriminate].
  match goal with
  | |- context [forOf ?body ?l ?s] =>
      destruct (forOf body l s) as [nutrientMap'|] eqn:Hloop; simpl; [|discriminate]
  end.
  intros [= <-]. simpl.
  eapply (forOf_invariant (fun m : JsObject.t NutrientFact => NoDup m.*1));
    [|exact Hnodup|exact Hloop].
  intros m fact m'. apply accumulateNutrient_NoDup.
Qed.

(** X2. The mapping emitted for a recipe is the sorted copy of the nutrient
    map the line items accumulate: it holds the same entries, and when no
    nutrient is named by an array index its names iterate in ascending
    order. *)
Theorem summarizeRecipe_sorted recipe s
    (Hsummary : summarizeRecipe recipe = Return s) :
  exists totalCost nutrientMap,
    forOf processLineItem (lineItems recipe) (zero, JsObject.empty)
      = Return (totalCost, nutrientMap) /\
    cheapestCost s = totalCost /\
    (forall name,
       JsObject.get (nutrientsAtCheapestCost s) name = JsObject.get nutrientMap name) /\
    (Forall (fun name => JsObject.arrayIndex name = None) nutrientMap.*1 ->
     JsObject.keys (nutrientsAtCheapestCost s) = JsObject.sort (JsObject.keys nutrientMap) /\
     StronglySorted String.le (JsObject.keys (nutrientsAtCheapestCost s))).
Proof.
  unfold summarizeRecipe in Hsummary.
  destruct (forOf processLineItem (lineItems recipe) (zero, JsObject.empty))
    as [[totalCost nutrientMap]|] eqn:Hloop; simpl in Hsummary; [|discriminate].
  injection Hsummary as <-. exists totalCost, nutrientMap. simpl.
  split; [reflexivity|]. split; [reflexivity|]. split.
  - intros name. apply sortNutrientsAlphabetically_get.
  - intros Hnames.
    assert (Hobject : NoDup nutrientMap.*1).
    { apply (forOf_invariant (fun st : number * JsObject.t NutrientFact => NoDup st.2.*1)
               processLineItem (lineItems recipe) (zero, JsObject.empty)
               (totalCost, nutrientMap) processLineItem_NoDup);
        [apply NoDup_nil_2 | exact Hloop]. }
    destruct (sortNutrientsAlphabetically_sorted nutrientMap Hobject Hnames)
      as (Hkeys & Hsorted & _).
    split; assumption.
Qed.

End Alphabetical.

(** ** Further properties of the conversion *)

Section FurtherConversion.
Context `{Helpers}.

Lemma callConvertUnits_Return_inv fromUoM toUoMName toUoMType u :
  callConvertUnits fromUoM toUoMName toUoMType = Return u ->
  ConvertUnits fromUoM toUoMName toUoMType = Return u.
Proof.
  unfold callConvertUnits.
  destruct (ConvertUnits fromUoM toUoMName toUoMType); [intros [= ->]; reflexivity|].
  discriminate.
Qed.

Lemma callConvertUnits_Throw_inv fromUoM toUoMName toUoMType err :
  callConvertUnits fromUoM toUoMName toUoMType = Throw err ->
  exists e, err = External e /\ ConvertUnits fromUoM toUoMName toUoMType = Throw e.
Proof.
  unfold callConvertUnits.
  destruct (ConvertUnits fromUoM toUoMName toUoMType) as [|e]; [discriminate|].
  intros [= <-]. exists e. split; reflexivity.
Qed.

(** The last hop of a three-hop path gives the result of the path. *)
Lemma three_hops_Return fromUoM hop1 hop2 hop3 u :
  (u1 ← callConvertUnits fromUoM hop1.1 hop1.2;
   u2 ← callConvertUnits u1 hop2.1 hop2.2;
   callConvertUnits u2 hop3.1 hop3.2) = Return u ->
  exists u2, ConvertUnits u2 hop3.1 hop3.2 = Return u.
Proof.
  destruct (callConvertUnits fromUoM hop1.1 hop1.2) as [u1|]; simpl; [|discriminate].
  destruct (callConvertUnits u1 hop2.1 hop2.2) as [u2|]; simpl; [|discriminate].
  intros Hlast. exists u2. apply callConvertUnits_Return_inv, Hlast.
Qed.

(** A three-hop path throws what [ConvertUnits] threw on one of its hops. *)
Lemma three_hops_Throw_inv fromUoM hop1 hop2 hop3 err :
  (u1 ← callConvertUnits fromUoM hop1.1 hop1.2;
   u2 ← callConvertUnits u1 hop2.1 hop2.2;
   callConvertUnits u2 hop3.1 hop3.2) = Throw err ->
  exists e, err = External e /\ hopFails fromUoM hop1 hop2 hop3 e.
Proof.
  unfold hopFails.
  destruct (callConvertUnits fromUoM hop1.1 hop1.2) as [u1|err1] eqn:H1; simpl.
  - apply callConvertUnits_Return_inv in H1.
    destruct (callConvertUnits u1 hop2.1 hop2.2) as [u2|err2] eqn:H2; simpl.
    + apply callConvertUnits_Return_inv in H2. intros H3.
      apply callConvertUnits_Throw_inv in H3 as (e & -> & H3).
      exists e. split; [reflexivity|]. right. exists u1. split; [exact H1|].
      right. exists u2. split; assumption.
    + intros [= <-]. apply callConvertUnits_Throw_inv in H2 as (e & -> & H2).
      exists e. split; [reflexivity|]. right. exists u1. split; [exact H1|].
      left. exact H2.
  - intros [= <-]. apply callConvertUnits_Throw_inv in H1 as (e & -> & H1).
    exists e. split; [reflexivity|]. left. exact H1.
Qed.

(** X5. Whatever the conversion with fallback returns was returned by a call
    of [ConvertUnits] for the requested unit name and type: the direct call,
    or the last hop of a fallback. *)
Theorem convertUnitsWithFallback_Return
    (fromUoM : UnitOfMeasure) (toUoMName : UoMName) (toUoMType : UoMType)
    (u : UnitOfMeasure)
    (Hreturn : convertUnitsWithFallback fromUoM toUoMName toUoMType = Return u) :
  exists u0, ConvertUnits u0 toUoMName toUoMType = Return u.
Proof.
  unfold convertUnitsWithFallback, handleVolumeToMassConversion,
    handleMassToVolumeConversion in Hreturn.
  destruct (ConvertUnits fromUoM toUoMName toUoMType) as [u'|e] eqn:Hdirect.
  { injection Hreturn as ->. exists fromUoM. exact Hdirect. }
  destruct (bool_decide (uomType fromUoM = volume) && bool_decide (toUoMType = mass))
    eqn:Hvm.
  { apply andb_prop in Hvm as [_ ->%bool_decide_eq_true].
    apply (three_hops_Return fromUoM (millilitres, volume) (grams, mass)
             (toUoMName, mass) u Hreturn). }
  destruct (bool_decide (uomType fromUoM = mass) && bool_decide (toUoMType = volume))
    eqn:Hmv; [|discriminate].
  apply andb_prop in Hmv as [_ ->%bool_decide_eq_true].
  apply (three_hops_Return fromUoM (grams, mass) (millilitres, volume)
           (toUoMName, volume) u Hreturn).
Qed.

(** X6. The conversion with fallback throws the unsupported-conversion error
    only when the direct conversion has thrown and the request is neither
    from a volume to a mass nor from a mass to a volume, and the error then
    names the request; any other error is what [ConvertUnits] threw on a hop
    of the fallback the request calls for.  It never throws the no-supplier
    error. *)
Theorem convertUnitsWithFallback_Throw
    (fromUoM : UnitOfMeasure) (toUoMName : UoMName) (toUoMType : UoMType)
    (err : Error)
    (Hthrow : convertUnitsWithFallback fromUoM toUoMName toUoMType = Throw err) :
  (exists e0, ConvertUnits fromUoM toUoMName toUoMType = Throw e0) /\
  ((err = UnsupportedConversion
            (uomType fromUoM) (uomName fromUoM) toUoMType toUoMName /\
    ~ (uomType fromUoM = volume /\ toUoMType = mass) /\
    ~ (uomType fromUoM = mass /\ toUoMType = volume)) \/
   (exists e, err = External e /\
      uomType fromUoM = volume /\ toUoMType = mass /\
      hopFails fromUoM (millilitres, volume) (grams, mass) (toUoMName, mass) e) \/
   (exists e, err = External e /\
      uomType fromUoM = mass /\ toUoMType = volume /\
      hopFails fromUoM (grams, mass) (millilitres, volume) (toUoMName, volume) e)).
Proof.
  unfold convertUnitsWithFallback, handleVolumeToMassConversion,
    handleMassToVolumeConversion in Hthrow.
  destruct (ConvertUnits fromUoM toUoMName toUoMType) as [u'|e0] eqn:Hdirect;
    [discriminate|].
  split; [exists e0; reflexivity|].
  destruct (bool_decide (uomType fromUoM = volume) && bool_decide (toUoMType = mass))
    eqn:Hvm.
  { apply andb_prop in Hvm as [Hfrom%bool_decide_eq_true Hto%bool_decide_eq_true].
    right. left.
    apply (three_hops_Throw_inv fromUoM (millilitres, volume) (grams, mass)
             (toUoMName, mass)) in Hthrow as (e & -> & Hhop).
    exists e. repeat split; assumption. }
  destruct (bool_decide (uomType fromUoM = mass) && bool_decide (toUoMType = volume))
    eqn:Hmv.
  { apply andb_prop in Hmv as [Hfrom%bool_decide_eq_true Hto%bool_decide_eq_true].
    right. right.
    apply (three_hops_Throw_inv fromUoM (grams, mass) (millilitres, volume)
             (toUoMName, volume)) in Hthrow as (e & -> & Hhop).
    exists e. repeat split; assumption. }
  left. injection Hthrow as <-. split; [reflexivity|].
  apply andb_false_iff in Hvm, Hmv. split.
  - intros [Hfrom Hto].
    destruct Hvm as [Hb|Hb]; apply bool_decide_eq_false in Hb; tauto.
  - intros [Hfrom Hto].
    destruct Hmv as [Hb|Hb]; apply bool_decide_eq_false in Hb; tauto.
Qed.

End FurtherConversion.

(** ** Further properties of the selection *)

Section FurtherSelection.
Context `{Helpers}.

Lemma elem_of_candidates availableProducts p s :
  (p, s) ∈ candidates availableProducts <->
  p ∈ availableProducts /\ s ∈ supplierProducts p.
Proof.
  unfold candidates. rewrite !list_elem_of_In, in_flat_map. split.
  - intros (p' & Hp' & Hin). apply in_map_iff in Hin as (s' & [= -> ->] & Hs').
    split; assumption.
  - intros [Hp Hs]. exists p. split; [exact Hp|]. apply in_map, Hs.
Qed.

Lemma Forall_costs cs :
  Forall (fun c => exists k, costIs c k) cs -> exists costs, Forall2 costIs cs costs.
Proof.
  induction 1 as [|c cs [k Hk] _ [costs IH]].
  - exists []. constructor.
  - exists (k :: costs). constructor; assumption.
Qed.

Lemma Forall2_costs_elem_of cs costs c :
  Forall2 costIs cs costs -> c ∈ cs ->
  exists j k, cs !! j = Some c /\ costs !! j = Some k /\ costIs c k.
Proof.
  intros Hall Hin. apply list_elem_of_lookup in Hin as [j Hj].
  destruct (Forall2_lookup_l _ _ _ _ _ Hall Hj) as (k & Hk & Hcost).
  exists j, k. repeat split; assumption.
Qed.

(** When the scan returns, every candidate had a cost. *)
Lemma scan_Return_costs cs st st' :
  scan cs st = Return st' -> exists costs, Forall2 costIs cs costs.
Proof.
  intros Hscan. destruct (costs_or_firstFailure cs) as [Hcosts|[err Hfail]];
    [exact Hcosts|].
  rewrite (scan_firstFailure _ _ _ Hfail) in Hscan. discriminate.
Qed.

Lemma findCheapestSupplier_Return_selects ingredient availableProducts sel :
  findCheapestSupplier ingredient availableProducts = Return sel ->
  exists costs i,
    Forall2 costIs (candidates availableProducts) costs /\
    selects (candidates availableProducts) costs i sel.
Proof.
  rewrite findCheapestSupplier_scan.
  destruct (scan (candidates availableProducts) (Infinity, None)) as [st|] eqn:Hscan;
    simpl; [|discriminate].
  destruct (scan_Return_costs _ _ _ Hscan) as [costs Hcosts].
  destruct (scan_scanned _ _ Hcosts) as (st' & Hscan' & Hst).
  rewrite Hscan in Hscan'. injection Hscan' as <-.
  unfold scanned in Hst. destruct st.2 as [sel'|]; [|discriminate].
  intros [= ->]. destruct Hst as [_ [i Hi]]. exists costs, i. split; assumption.
Qed.

Lemma findCheapestSupplier_costs_selects ingredient availableProducts costs :
  Forall2 costIs (candidates availableProducts) costs ->
  Exists (fun k => ltb k Infinity = true) costs ->
  exists i sel,
    findCheapestSupplier ingredient availableProducts = Return sel /\
    selects (candidates availableProducts) costs i sel.
Proof.
  intros Hcosts Hfinite. rewrite findCheapestSupplier_scan.
  destruct (scan_scanned _ _ Hcosts) as ([m [sel|]] & Hscan & Hst);
    rewrite Hscan; simpl.
  - destruct Hst as [_ [i Hi]]. exists i, sel. split; [reflexivity | exact Hi].
  - destruct Hst as [_ Hall]. simpl in Hall.
    apply Exists_exists in Hfinite as (k & Hk & Hlt).
    rewrite Forall_forall in Hall. rewrite (Hall _ Hk) in Hlt. discriminate.
Qed.

Lemma findCheapestSupplier_costs_none ingredient availableProducts costs :
  Forall2 costIs (candidates availableProducts) costs ->
  Forall (fun k => ltb k Infinity = false) costs ->
  findCheapestSupplier ingredient availableProducts
    = Throw (NoSupplierFound (ingredientName ingredient)).
Proof.
  intros Hcosts Hinf. rewrite findCheapestSupplier_scan.
  destruct (scan_scanned _ _ Hcosts) as ([m [sel|]] & Hscan & Hst);
    rewrite Hscan; simpl; [|reflexivity].
  destruct Hst as [_ (i & _ & Hi & Hlt & _)]. simpl in *.
  rewrite Forall_lookup in Hinf. rewrite (Hinf _ _ Hi) in Hlt. discriminate.
Qed.

(** What a returned selection says of every supplier. *)
Lemma findCheapestSupplier_Return_all ingredient availableProducts sel :
  findCheapestSupplier ingredient availableProducts = Return sel ->
  (product sel, supplier sel) ∈ candidates availableProducts /\
  getNormalizedCost (supplier sel) = Return (cost sel) /\
  ltb (cost sel) Infinity = true /\
  forall c, c ∈ candidates availableProducts ->
    exists k, costIs c k /\ ltb k (cost sel) = false.
Proof.
  intros Hsel.
  destruct (findCheapestSupplier_Return_selects _ _ _ Hsel)
    as (costs & i & Hcosts & Hc & Hk & Hinf & Hmin & _).
  split; [apply list_elem_of_lookup; exists i; exact Hc|].
  split.
  { destruct (Forall2_lookup_l _ _ _ _ _ Hcosts Hc) as (k & Hk' & Hcost).
    rewrite Hk in Hk'. injection Hk' as <-. exact Hcost. }
  split; [exact Hinf|].
  intros c Hin. destruct (Forall2_costs_elem_of _ _ _ Hcosts Hin) as (j & k & _ & Hj & Hcost).
  exists k. split; [exact Hcost | exact (Hmin j k Hj)].
Qed.

(** X7. A supplier that the selection returns is a supplier of one of the
    candidate products, returned with that product and with its normalized
    cost; the cost is below [Infinity], so it is neither NaN nor
    [Infinity]; and every supplier of every candidate product has a
    normalized cost, none lower than the one returned. *)
Theorem findCheapestSupplier_Return
    (ingredient : Ingredient) (availableProducts : list Product)
    (sel : SelectedSupplier)
    (Hsel : findCheapestSupplier ingredient availableProducts = Return sel) :
  product sel ∈ availableProducts /\
  supplier sel ∈ supplierProducts (product sel) /\
  getNormalizedCost (supplier sel) = Return (cost sel) /\
  ltb (cost sel) Infinity = true /\
  forall p s, p ∈ availableProducts -> s ∈ supplierProducts p ->
    exists k, getNormalizedCost s = Return k /\ ltb k (cost sel) = false.
Proof.
  destruct (findCheapestSupplier_Return_all _ _ _ Hsel) as (Hin & Hcost & Hinf & Hall).
  apply elem_of_candidates in Hin as [Hp Hs].
  repeat split; try assumption.
  intros p s Hp' Hs'. apply (Hall (p, s)). apply elem_of_candidates. split; assumption.
Qed.

(** Two costs below [Infinity], neither lower than the other, are equal. *)
Lemma sameNumber_of_not_ltb (x y : number) :
  ltb x Infinity = true -> ltb y Infinity = true ->
  ltb x y = false -> ltb y x = false -> sameNumber x y = true.
Proof.
  unfold sameNumber, ltb, Infinity, SFeqb, SFltb, SFcompare.
  destruct x as [[]|[]| |[] mx ex], y as [[]|[]| |[] my ey]; simpl;
    intros Hx Hy Hxy Hyx; try discriminate; try reflexivity; compare_cases.
Qed.

(** X8. The order of the candidate products decides which supplier is
    returned among those of the lowest cost, and not the cost: when the
    selection returns for a list of products, it returns for every
    permutation of the list, with an equal cost. *)
Theorem findCheapestSupplier_Permutation
    (ingredient : Ingredient) (availableProducts availableProducts' : list Product)
    (sel : SelectedSupplier)
    (Hperm : availableProducts ≡ₚ availableProducts')
    (Hsel : findCheapestSupplier ingredient availableProducts = Return sel) :
  exists sel',
    findCheapestSupplier ingredient availableProducts' = Return sel' /\
    sameNumber (cost sel) (cost sel') = true.
Proof.
  destruct (findCheapestSupplier_Return_all _ _ _ Hsel) as (Hin & Hcost & Hinf & Hall).
  assert (Hsame : forall c, c ∈ candidates availableProducts' ->
                    c ∈ candidates availableProducts).
  { intros [p s]. rewrite !elem_of_candidates, Hperm. tauto. }
  assert (Hin' : (product sel, supplier sel) ∈ candidates availableProducts').
  { apply elem_of_candidates. apply elem_of_candidates in Hin. rewrite <- Hperm. exact Hin. }
  destruct (Forall_costs (candidates availableProducts')) as [costs' Hcosts'].
  { rewrite Forall_forall. intros c Hc.
    destruct (Hall c (Hsame c Hc)) as (k & Hk & _). exists k. exact Hk. }
  destruct (Forall2_costs_elem_of _ _ _ Hcosts' Hin') as (j & k & _ & Hj & Hk).
  unfold costIs in Hk. simpl in Hk. rewrite Hcost in Hk. injection Hk as <-.
  destruct (findCheapestSupplier_costs_selects ingredient availableProducts' costs' Hcosts')
    as (i & sel' & Hsel' & Hc' & Hk' & Hinf' & Hmin' & _).
  { apply Exists_exists. exists (cost sel). split; [|exact Hinf].
    apply list_elem_of_lookup. exists j. exact Hj. }
  exists sel'. split; [exact Hsel'|].
  apply sameNumber_of_not_ltb; [exact Hinf | exact Hinf' | exact (Hmin' j _ Hj) |].
  assert (Hc'in : (product sel', supplier sel') ∈ candidates availableProducts)
    by (apply Hsame, list_elem_of_lookup; exists i; exact Hc').
  destruct (Hall _ Hc'in) as (k & Hk & Hlt).
  destruct (Forall2_lookup_l _ _ _ _ _ Hcosts' Hc') as (k' & Hk'' & Hcost').
  rewrite Hk' in Hk''. injection Hk'' as <-.
  unfold costIs in Hk, Hcost'. rewrite Hcost' in Hk. injection Hk as <-. exact Hlt.
Qed.

(** A quotient by a zero is not below [Infinity] unless the signs of its
    terms differ. *)
Lemma div_zero_not_below_Infinity (price : number) :
  ltb price zero = false -> ltb (div price zero) Infinity = false.
Proof.
  unfold ltb, div, zero, Infinity, SFltb, SFdiv, SFcompare.
  destruct price as [[]|[]| |[] m e]; simpl; intros Hprice;
    try discriminate; reflexivity.
Qed.

Lemma div_negative_zero_not_below_Infinity (price : number) :
  ltb zero price = false -> ltb (div price (S754_zero true)) Infinity = false.
Proof.
  unfold ltb, div, zero, Infinity, SFltb, SFdiv, SFcompare.
  destruct price as [[]|[]| |[] m e]; simpl; intros Hprice;
    try discriminate; reflexivity.
Qed.

Lemma zeroGramPackage_cost supplier :
  zeroGramPackage supplier ->
  exists k, getNormalizedCost supplier = Return k /\ ltb k Infinity = false.
Proof.
  intros (converted & Hconv & Hsigns).
  exists (div (supplierPrice supplier) (uomAmount converted)). split.
  - unfold getNormalizedCost. rewrite Hconv. reflexivity.
  - destruct Hsigns as [[-> Hprice]|[-> Hprice]].
    + apply div_zero_not_below_Infinity, Hprice.
    + apply div_negative_zero_not_below_Infinity, Hprice.
Qed.

(** A package of [-0] grams at a price above [0] costs [-Infinity], which is
    below every other cost. *)
Lemma getNormalizedCost_negative_zero supplier converted :
  convertUnitsWithFallback (supplierProductUoM supplier) grams mass = Return converted ->
  uomAmount converted = S754_zero true ->
  ltb zero (supplierPrice supplier) = true ->
  getNormalizedCost supplier = Return (S754_infinity true).
Proof.
  intros Hconv Hamount Hprice. unfold getNormalizedCost. rewrite Hconv. simpl.
  rewrite Hamount. unfold mret, Result_ret. f_equal. revert Hprice.
  unfold ltb, div, zero, SFltb, SFdiv, SFcompare.
  destruct (supplierPrice supplier) as [[]|[]| |[] m e]; simpl; intros Hprice;
    try discriminate; reflexivity.
Qed.

(** X9. A supplier whose package converts to [+0] grams, at a price that is
    not below 0, or to [-0] grams, at a price that is not above 0, has a cost
    that is not below [Infinity] ([Infinity] or NaN); no selection, from
    whatever candidate products, returns such a supplier; and when every
    supplier of every candidate product is such a supplier, the selection
    throws the no-supplier error although the candidate list has suppliers
    and every cost computation returns. *)
Theorem findCheapestSupplier_zero_packages
    (zeroPack : SupplierProduct)
    (Hzero : zeroGramPackage zeroPack) :
  (exists k, getNormalizedCost zeroPack = Return k /\ ltb k Infinity = false) /\
  (forall ingredient availableProducts sel,
     findCheapestSupplier ingredient availableProducts = Return sel ->
     supplier sel <> zeroPack) /\
  (forall ingredient availableProducts,
     (forall p s, p ∈ availableProducts -> s ∈ supplierProducts p -> zeroGramPackage s) ->
     findCheapestSupplier ingredient availableProducts
       = Throw (NoSupplierFound (ingredientName ingredient))).
Proof.
  split; [exact (zeroGramPackage_cost _ Hzero)|]. split.
  - intros ingredient availableProducts sel Hsel Heq.
    destruct (findCheapestSupplier_Return_all _ _ _ Hsel) as (_ & Hcost & Hinf & _).
    destruct (zeroGramPackage_cost _ Hzero) as (k & Hk & Hnot).
    rewrite Heq, Hk in Hcost. injection Hcost as ->.
    rewrite Hinf in Hnot. discriminate.
  - intros ingredient availableProducts Hall'.
    assert (Hall : Forall (fun c => exists k, costIs c k /\ ltb k Infinity = false)
                     (candidates availableProducts)).
    { rewrite Forall_forall. intros [p s] [Hp Hs]%elem_of_candidates.
      exact (zeroGramPackage_cost _ (Hall' p s Hp Hs)). }
    assert (Hcosts : exists costs,
              Forall2 costIs (candidates availableProducts) costs /\
              Forall (fun k => ltb k Infinity = false) costs).
    { induction Hall as [|c cs (k & Hk & Hinf) _ (costs & IH1 & IH2)].
      - exists []. split; constructor.
      - exists (k :: costs). split; constructor; assumption. }
    destruct Hcosts as (costs & Hcosts & Hinf).
    exact (findCheapestSupplier_costs_none ingredient availableProducts costs Hcosts Hinf).
Qed.

End FurtherSelection.

(** ** Further properties of the nutrient contribution *)

Section FurtherContribution.
Context `{Helpers}.

Lemma sameBasis_refl fact : sameBasis fact fact.
Proof. repeat split. Qed.

Lemma sameBasis_trans fact1 fact2 fact3 :
  sameBasis fact1 fact2 -> sameBasis fact2 fact3 -> sameBasis fact1 fact3.
Proof.
  intros (H1 & H2 & H3 & H4) (H1' & H2' & H3' & H4').
  repeat split; congruence.
Qed.

(** One round keeps the basis of the entries the map holds, and a new entry
    takes the basis of the fact. *)
Lemma accumulateNutrient_basis requiredUoM normalizedAmount nutrientMap fact nutrientMap' :
  accumulateNutrient requiredUoM normalizedAmount nutrientMap fact = Return nutrientMap' ->
  (forall name entry, JsObject.get nutrientMap name = Some entry ->
     exists entry', JsObject.get nutrientMap' name = Some entry' /\ sameBasis entry entry') /\
  (exists entry',
     JsObject.get nutrientMap' (nutrientName (GetNutrientFactInBaseUnits fact))
       = Some entry') /\
  (forall name entry', JsObject.get nutrientMap' name = Some entry' ->
     JsObject.get nutrientMap name = None ->
     name = nutrientName (GetNutrientFactInBaseUnits fact) /\
     sameBasis (GetNutrientFactInBaseUnits fact) entry').
Proof.
  intros Hstep.
  destruct (accumulateNutrient_Return _ _ _ _ _ Hstep) as (converted & _ & ->).
  set (baseFact := GetNutrientFactInBaseUnits fact).
  set (value := contribution baseFact (uomAmount converted) normalizedAmount).
  destruct (JsObject.get nutrientMap (nutrientName baseFact)) as [old|] eqn:Hold.
  - split; [|split].
    + intros name entry Hentry.
      destruct (decide (name = nutrientName baseFact)) as [->|Hne].
      * rewrite get_update_eq, Hold. rewrite Hentry in Hold. injection Hold as <-.
        eexists. split; [reflexivity|]. repeat split.
      * rewrite get_update_ne by exact Hne. exists entry. split; [exact Hentry|].
        apply sameBasis_refl.
    + rewrite get_update_eq, Hold. eexists. reflexivity.
    + intros name entry' Hentry' Hnone.
      destruct (decide (name = nutrientName baseFact)) as [->|Hne].
      * rewrite Hold in Hnone. discriminate.
      * rewrite get_update_ne in Hentry' by exact Hne.
        rewrite Hentry' in Hnone. discriminate.
  - split; [|split].
    + intros name entry Hentry.
      assert (Hne : name <> nutrientName baseFact)
        by (intros ->; rewrite Hold in Hentry; discriminate).
      rewrite get_update_ne, get_set_ne by exact Hne.
      exists entry. split; [exact Hentry | apply sameBasis_refl].
    + rewrite get_update_eq, get_set_eq. eexists. reflexivity.
    + intros name entry' Hentry' Hnone.
      destruct (decide (name = nutrientName baseFact)) as [->|Hne].
      * split; [reflexivity|].
        rewrite get_update_eq, get_set_eq in Hentry'. injection Hentry' as <-.
        repeat split.
      * rewrite get_update_ne, get_set_ne in Hentry' by exact Hne.
        rewrite Hentry' in Hnone. discriminate.
Qed.

(** The outcome of the whole function, read from its result. *)
Lemma calculateNutrientContribution_Return requiredUoM selectedSupplier nutrientMap r :
  calculateNutrientContribution requiredUoM selectedSupplier nutrientMap = Return r ->
  exists inGrams,
    convertUnitsWithFallback requiredUoM grams mass = Return inGrams /\
    forOf (accumulateNutrient requiredUoM (uomAmount inGrams))
      (nutrientFacts (product selectedSupplier)) nutrientMap = Return r.1 /\
    r.2 = mul (uomAmount inGrams) (cost selectedSupplier).
Proof.
  unfold calculateNutrientContribution. intros Hreturn.
  destruct (convertUnitsWithFallback requiredUoM grams mass) as [inGrams|];
    simpl in Hreturn; [|discriminate].
  match type of Hreturn with
  | context [forOf ?body ?l ?s] =>
      destruct (forOf body l s) as [nutrientMap'|] eqn:Hloop;
        simpl in Hreturn; [|discriminate]
  end.
  injection Hreturn as <-. exists inGrams.
  split; [reflexivity|]. split; [exact Hloop | reflexivity].
Qed.

Lemma forOf_cons_Return {E S A} (body : S -> A -> Result E S) x l s s' :
  forOf body (x :: l) s = Return s' ->
  exists s1, body s x = Return s1 /\ forOf body l s1 = Return s'.
Proof.
  simpl. destruct (body s x) as [s1|]; simpl; [|discriminate].
  intros Hrest. exists s1. split; [reflexivity | exact Hrest].
Qed.

Lemma accumulated_basis requiredUoM normalizedAmount facts nutrientMap nutrientMap' :
  forOf (accumulateNutrient requiredUoM normalizedAmount) facts nutrientMap
    = Return nutrientMap' ->
  (forall name entry, JsObject.get nutrientMap name = Some entry ->
     exists entry', JsObject.get nutrientMap' name = Some entry' /\ sameBasis entry entry') /\
  (forall name entry', JsObject.get nutrientMap' name = Some entry' ->
     JsObject.get nutrientMap name = None ->
     exists before fact after,
       facts = before ++ fact :: after /\
       Forall (fun earlier => nutrientName (GetNutrientFactInBaseUnits earlier) <> name)
         before /\
       nutrientName (GetNutrientFactInBaseUnits fact) = name /\
       sameBasis (GetNutrientFactInBaseUnits fact) entry').
Proof.
  revert nutrientMap. induction facts as [|fact facts IH]; intros nutrientMap Hloop.
  - injection Hloop as <-. split.
    + intros name entry Hentry. exists entry. split; [exact Hentry | apply sameBasis_refl].
    + intros name entry' Hentry' Hnone. rewrite Hentry' in Hnone. discriminate.
  - apply forOf_cons_Return in Hloop as (m1 & Hstep & Hrest).
    destruct (accumulateNutrient_basis _ _ _ _ _ Hstep) as (Hkeep & [new Hnew] & Hfresh).
    destruct (IH m1 Hrest) as (Hkeep' & Hfresh'). split.
    + intros name entry Hentry.
      destruct (Hkeep name entry Hentry) as (entry1 & Hentry1 & Hbasis1).
      destruct (Hkeep' name entry1 Hentry1) as (entry' & Hentry' & Hbasis').
      exists entry'. split; [exact Hentry' | exact (sameBasis_trans _ _ _ Hbasis1 Hbasis')].
    + intros name entry' Hentry' Hnone.
      destruct (JsObject.get m1 name) as [entry1|] eqn:Hentry1.
      * destruct (Hfresh name entry1 Hentry1 Hnone) as [-> Hbasis1].
        destruct (Hkeep' _ entry1 Hentry1) as (entry'' & Hentry'' & Hbasis').
        rewrite Hentry' in Hentry''. injection Hentry'' as <-.
        exists [], fact, facts. split; [reflexivity|]. split; [constructor|].
        split; [reflexivity | exact (sameBasis_trans _ _ _ Hbasis1 Hbasis')].
      * destruct (Hfresh' name entry' Hentry' Hentry1)
          as (before & fact' & after & -> & Hbefore & Hname & Hbasis).
        exists (fact :: before), fact', after. split; [reflexivity|].
        split; [|split; assumption].
        constructor; [|exact Hbefore]. intros Heq. rewrite Heq in Hnew.
        rewrite Hentry1 in Hnew. discriminate.
Qed.

(** X10. The accumulation keeps the basis of every entry the map holds: its
    nutrient name, its [quantityPer] and the unit of its amount stay as they
    are, whatever the facts say.  An entry it creates takes them from the
    first fact of the selected product, in base units, that names the
    nutrient. *)
Theorem calculateNutrientContribution_basis
    (requiredUoM : UnitOfMeasure) (selectedSupplier : SelectedSupplier)
    (nutrientMap nutrientMap' : JsObject.t NutrientFact) (ingredientCost : number)
    (Hreturn : calculateNutrientContribution requiredUoM selectedSupplier nutrientMap
                 = Return (nutrientMap', ingredientCost)) :
  (forall name entry, JsObject.get nutrientMap name = Some entry ->
     exists entry', JsObject.get nutrientMap' name = Some entry' /\ sameBasis entry entry') /\
  (forall name entry', JsObject.get nutrientMap' name = Some entry' ->
     JsObject.get nutrientMap name = None ->
     exists before fact after,
       nutrientFacts (product selectedSupplier) = before ++ fact :: after /\
       Forall (fun earlier => nutrientName (GetNutrientFactInBaseUnits earlier) <> name)
         before /\
       nutrientName (GetNutrientFactInBaseUnits fact) = name /\
       sameBasis (GetNutrientFactInBaseUnits fact) entry').
Proof.
  apply calculateNutrientContribution_Return in Hreturn as (inGrams & _ & Hloop & _).
  exact (accumulated_basis _ _ _ _ _ Hloop).
Qed.

(** NaN absorbs an addition, and zero grams of an ingredient, zero in the
    unit of the fact as well, give a contribution of NaN: 0 / 0. *)
Lemma add_NaN_l x : add NaN x = NaN.
Proof. reflexivity. Qed.

Lemma add_NaN_r x : add x NaN = NaN.
Proof. destruct x as [[]|[]| |[] m e]; reflexivity. Qed.

Lemma contribution_zero baseFact ingredientAmount normalizedMassGrams :
  isZero ingredientAmount -> isZero normalizedMassGrams ->
  contribution baseFact ingredientAmount normalizedMassGrams = NaN.
Proof.
  intros [s1 ->] [s2 ->]. unfold contribution.
  generalize (div (uomAmount (quantityAmount baseFact))
                (uomAmount (quantityPer baseFact))) as density.
  generalize (uomAmount (quantityPer baseFact)) as per.
  intros per density. destruct density as [sd|sd| |sd md ed]; reflexivity.
Qed.

Lemma accumulated_zero requiredUoM normalizedAmount facts nutrientMap :
  isZero normalizedAmount ->
  Forall
    (fun fact =>
       exists converted,
         convertUnitsWithFallback requiredUoM
           (uomName (quantityPer (GetNutrientFactInBaseUnits fact)))
           (uomType (quantityPer (GetNutrientFactInBaseUnits fact)))
           = Return converted /\
         isZero (uomAmount converted))
    facts ->
  Forall
    (fun fact =>
       JsObject.inherited (nutrientName (GetNutrientFactInBaseUnits fact)) = false)
    facts ->
  exists nutrientMap',
    forOf (accumulateNutrient requiredUoM normalizedAmount) facts nutrientMap
      = Return nutrientMap' /\
    (forall name, amountOf nutrientMap name = NaN -> amountOf nutrientMap' name = NaN) /\
    Forall
      (fun fact =>
         amountOf nutrientMap' (nutrientName (GetNutrientFactInBaseUnits fact)) = NaN)
      facts.
Proof.
  intros Hzero Hfacts. revert nutrientMap.
  induction Hfacts as [|fact facts (converted & Hconv & Hamount) _ IH];
    intros nutrientMap Hnames.
  - exists nutrientMap. split; [reflexivity|]. split; [tauto | constructor].
  - apply Forall_cons in Hnames as [Hown Hnames].
    destruct (accumulateNutrient_Adds requiredUoM normalizedAmount nutrientMap fact
                converted Hconv (read_not_Inherited _ _ Hown))
      as (m1 & Hstep & _ & Hadd & Hothers).
    rewrite (contribution_zero _ _ _ Hamount Hzero), add_NaN_r in Hadd.
    destruct (IH m1 Hnames) as (m' & Hrest & Hkeep & Hall).
    exists m'. split; [simpl; rewrite Hstep; exact Hrest|].
    assert (Hstep_keep : forall name, amountOf nutrientMap name = NaN ->
                           amountOf m1 name = NaN).
    { intros name Hname.
      destruct (decide (name = nutrientName (GetNutrientFactInBaseUnits fact)))
        as [->|Hne]; [exact Hadd|].
      unfold amountOf in *. rewrite (Hothers name Hne). exact Hname. }
    split; [intros name Hname; apply Hkeep, Hstep_keep, Hname|].
    constructor; [apply Hkeep, Hadd | exact Hall].
Qed.

(** X11. A required quantity of zero grams, zero in the unit of every fact as
    well, turns the amount of every nutrient of the selected product into
    NaN, the map's earlier amount being lost: the contribution is 0 / 0.  The
    amounts that are NaN already stay NaN.  The nutrients are those of a
    product none of whose facts, in base units, is named by a property name
    of [Object.prototype]. *)
Theorem calculateNutrientContribution_zero_quantity
    (requiredUoM : UnitOfMeasure) (selectedSupplier : SelectedSupplier)
    (nutrientMap : JsObject.t NutrientFact) (inGrams : UnitOfMeasure)
    (Hgrams : convertUnitsWithFallback requiredUoM grams mass = Return inGrams)
    (Hzero : isZero (uomAmount inGrams))
    (Hfacts : Forall
       (fun fact =>
          exists converted,
            convertUnitsWithFallback requiredUoM
              (uomName (quantityPer (GetNutrientFactInBaseUnits fact)))
              (uomType (quantityPer (GetNutrientFactInBaseUnits fact)))
              = Return converted /\
            isZero (uomAmount converted))
       (nutrientFacts (product selectedSupplier)))
    (Hnames : Forall
       (fun fact =>
          JsObject.inherited (nutrientName (GetNutrientFactInBaseUnits fact)) = false)
       (nutrientFacts (product selectedSupplier))) :
  exists nutrientMap',
    calculateNutrientContribution requiredUoM selectedSupplier nutrientMap
      = Return (nutrientMap', mul (uomAmount inGrams) (cost selectedSupplier)) /\
    (forall name, amountOf nutrientMap name = NaN -> amountOf nutrientMap' name = NaN) /\
    Forall
      (fun fact =>
         amountOf nutrientMap' (nutrientName (GetNutrientFactInBaseUnits fact)) = NaN)
      (nutrientFacts (product selectedSupplier)).
Proof.
  destruct (accumulated_zero requiredUoM (uomAmount inGrams)
              (nutrientFacts (product selectedSupplier)) nutrientMap Hzero Hfacts
              Hnames)
    as (m' & Hloop & Hkeep & Hall).
  exists m'. unfold calculateNutrientContribution. rewrite Hgrams. simpl.
  rewrite Hloop. simpl. repeat split; assumption.
Qed.

Lemma accumulated_amount requiredUoM normalizedAmount facts nutrientMap nutrientMap' name :
  forOf (accumulateNutrient requiredUoM normalizedAmount) facts nutrientMap
    = Return nutrientMap' ->
  exists values,
    Forall2 (contributionIs requiredUoM normalizedAmount) (factsNaming name facts) values /\
    amountOf nutrientMap' name = fold_left add values (amountOf nutrientMap name).
Proof.
  revert nutrientMap. induction facts as [|fact facts IH]; intros nutrientMap Hloop.
  - injection Hloop as <-. exists []. split; [constructor | reflexivity].
  - apply forOf_cons_Return in Hloop as (m1 & Hstep & Hrest).
    destruct (accumulateNutrient_Return_Adds _ _ _ _ _ Hstep)
      as (converted & Hconv & _ & Hadd & Hothers).
    destruct (IH m1 Hrest) as (values & Hvalues & Hamount).
    unfold factsNaming in *. rewrite filter_cons.
    destruct (decide (nutrientName (GetNutrientFactInBaseUnits fact) = name))
      as [Hname|Hname].
    + exists (contribution (GetNutrientFactInBaseUnits fact) (uomAmount converted)
                normalizedAmount :: values).
      split.
      * constructor; [|exact Hvalues]. exists converted. split; [exact Hconv | reflexivity].
      * rewrite Hamount. simpl. rewrite <- Hname, Hadd. reflexivity.
    + exists values. split; [exact Hvalues|].
      rewrite Hamount. unfold amountOf. rewrite (Hothers name); [reflexivity|].
      intros Heq. apply Hname. symmetry. exact Heq.
Qed.

(** X18. After the accumulation the amount of a nutrient is the amount the
    map held for it, or 0, to which the contributions of the facts of the
    selected product that name the nutrient have been added one after the
    other, in the order of the facts; the amount of a nutrient that no fact
    names is as it was. *)
Theorem calculateNutrientContribution_amount
    (requiredUoM : UnitOfMeasure) (selectedSupplier : SelectedSupplier)
    (nutrientMap nutrientMap' : JsObject.t NutrientFact) (ingredientCost : number)
    (name : string)
    (Hreturn : calculateNutrientContribution requiredUoM selectedSupplier nutrientMap
                 = Return (nutrientMap', ingredientCost)) :
  exists inGrams values,
    convertUnitsWithFallback requiredUoM grams mass = Return inGrams /\
    Forall2 (contributionIs requiredUoM (uomAmount inGrams))
      (factsNaming name (nutrientFacts (product selectedSupplier))) values /\
    amountOf nutrientMap' name = fold_left add values (amountOf nutrientMap name).
Proof.
  apply calculateNutrientContribution_Return in Hreturn as (inGrams & Hgrams & Hloop & _).
  destruct (accumulated_amount _ _ _ _ _ name Hloop) as (values & Hvalues & Hamount).
  exists inGrams, values. repeat split; assumption.
Qed.

End FurtherContribution.

(** ** Further properties of the recipe summary *)

Section FurtherSummary.
Context `{Helpers}.

Lemma processLineItem_Return st lineItem st' :
  processLineItem st lineItem = Return st' ->
  exists selected r,
    findCheapestSupplier (ingredient lineItem)
      (GetProductsForIngredient (ingredient lineItem)) = Return selected /\
    calculateNutrientContribution (unitOfMeasure lineItem) selected st.2 = Return r /\
    st' = (add st.1 r.2, r.1).
Proof.
  unfold processLineItem. intros Hreturn.
  destruct (findCheapestSupplier (ingredient lineItem)
              (GetProductsForIngredient (ingredient lineItem))) as [selected|] eqn:Hsel;
    simpl in Hreturn; [|discriminate].
  match type of Hreturn with
  | context [calculateNutrientContribution ?u ?sel ?m] =>
      destruct (calculateNutrientContribution u sel m) as [r|] eqn:Hcontribution;
        simpl in Hreturn; [|discriminate]
  end.
  injection Hreturn as <-. exists selected, r.
  split; [reflexivity|]. split; [exact Hcontribution | reflexivity].
Qed.

Lemma summarizeRecipe_Return recipe s :
  summarizeRecipe recipe = Return s ->
  exists st,
    forOf processLineItem (lineItems recipe) (zero, JsObject.empty) = Return st /\
    s = {| cheapestCost := st.1;
           nutrientsAtCheapestCost := sortNutrientsAlphabetically st.2 |}.
Proof.
  unfold summarizeRecipe. intros Hreturn.
  destruct (forOf processLineItem (lineItems recipe) (zero, JsObject.empty))
    as [st|] eqn:Hloop; simpl in Hreturn; [|discriminate].
  injection Hreturn as <-. exists st. split; reflexivity.
Qed.

(** *** The total cost *)

Lemma lineItems_cost lineItems st st' :
  forOf processLineItem lineItems st = Return st' ->
  exists costs, Forall2 lineItemCostIs lineItems costs /\
                st'.1 = fold_left add costs st.1.
Proof.
  revert st. induction lineItems as [|lineItem lineItems IH]; intros st Hloop.
  - injection Hloop as <-. exists []. split; [constructor | reflexivity].
  - apply forOf_cons_Return in Hloop as (st1 & Hstep & Hrest).
    apply processLineItem_Return in Hstep as (selected & r & Hsel & Hcontribution & ->).
    apply calculateNutrientContribution_Return in Hcontribution
      as (inGrams & Hgrams & _ & Hcost).
    destruct (IH _ Hrest) as (costs & Hcosts & Htotal).
    exists (mul (uomAmount inGrams) (cost selected) :: costs). split.
    + constructor; [|exact Hcosts]. exists selected, inGrams. repeat split; assumption.
    + rewrite Htotal. simpl. rewrite Hcost. reflexivity.
Qed.

(** X12. The cost of a summarized recipe is the sum of the costs of its line
    items, each the cost per gram of the cheapest supplier of the ingredient
    times the required quantity in grams, added one after the other to 0 in
    the order of the line items. *)
Theorem summarizeRecipe_cost
    (recipe : Recipe) (s : RecipeSummary)
    (Hsummary : summarizeRecipe recipe = Return s) :
  exists costs,
    Forall2 lineItemCostIs (lineItems recipe) costs /\
    cheapestCost s = fold_left add costs zero.
Proof.
  apply summarizeRecipe_Return in Hsummary as (st & Hloop & ->).
  exact (lineItems_cost _ _ _ Hloop).
Qed.

(** *** Entries under their own names *)

Lemma keyedByName_get nutrientMap name entry :
  keyedByName nutrientMap -> JsObject.get nutrientMap name = Some entry ->
  nutrientName entry = name.
Proof.
  unfold keyedByName. induction 1 as [|[k f] o Hk _ IH]; simpl; [discriminate|].
  destruct (bool_decide (k = name)) eqn:E; [|exact IH].
  apply bool_decide_eq_true in E as <-. intros [= <-]. exact Hk.
Qed.

Lemma set_keyed nutrientMap name entry :
  keyedByName nutrientMap -> nutrientName entry = name ->
  keyedByName (JsObject.set nutrientMap name entry).
Proof.
  unfold keyedByName. intros Hkeyed Hname.
  induction Hkeyed as [|[k f] o Hk Hkeyed IH]; simpl.
  - constructor; [exact Hname | constructor].
  - destruct (bool_decide (k = name)) eqn:E.
    + apply bool_decide_eq_true in E as ->. constructor; [exact Hname | exact Hkeyed].
    + constructor; [exact Hk | exact IH].
Qed.

Lemma update_keyed nutrientMap name g :
  keyedByName nutrientMap -> (forall f, nutrientName (g f) = nutrientName f) ->
  keyedByName (JsObject.update nutrientMap name g).
Proof.
  unfold keyedByName. intros Hkeyed Hg.
  induction Hkeyed as [|[k f] o Hk Hkeyed IH]; simpl; [constructor|].
  destruct (bool_decide (k = name)).
  - constructor; [simpl in *; rewrite Hg; exact Hk | exact Hkeyed].
  - constructor; [exact Hk | exact IH].
Qed.

Lemma accumulateNutrient_keyed requiredUoM normalizedAmount nutrientMap fact nutrientMap' :
  keyedByName nutrientMap ->
  accumulateNutrient requiredUoM normalizedAmount nutrientMap fact = Return nutrientMap' ->
  keyedByName nutrientMap'.
Proof.
  intros Hkeyed Hstep.
  destruct (accumulateNutrient_Return _ _ _ _ _ Hstep) as (converted & _ & ->).
  apply update_keyed; [|reflexivity].
  destruct (JsObject.get nutrientMap _); [exact Hkeyed|].
  apply set_keyed; [exact Hkeyed | reflexivity].
Qed.

Lemma processLineItem_keyed st lineItem st' :
  keyedByName st.2 -> processLineItem st lineItem = Return st' -> keyedByName st'.2.
Proof.
  intros Hkeyed Hstep.
  apply processLineItem_Return in Hstep as (selected & r & _ & Hcontribution & ->).
  apply calculateNutrientContribution_Return in Hcontribution as (inGrams & _ & Hloop & _).
  simpl.
  apply (forOf_invariant keyedByName
           (accumulateNutrient (unitOfMeasure lineItem) (uomAmount inGrams))
           (nutrientFacts (product selected)) st.2 r.1);
    [|exact Hkeyed|exact Hloop].
  intros m fact m'. apply accumulateNutrient_keyed.
Qed.

Lemma reinsert_keyed nutrientMap names ordered :
  keyedByName nutrientMap -> keyedByName ordered ->
  keyedByName (reinsert nutrientMap names ordered).
Proof.
  unfold reinsert. intros Hkeyed. revert ordered.
  induction names as [|name names IH]; intros ordered Hordered; simpl;
    [exact Hordered|].
  apply IH. destruct (JsObject.get nutrientMap name) as [entry|] eqn:Hentry;
    [|exact Hordered].
  apply set_keyed; [exact Hordered | exact (keyedByName_get _ _ _ Hkeyed Hentry)].
Qed.

(** X13. In the nutrient mapping of a summarized recipe every entry is stored
    under the name of its own nutrient: the [nutrientName] of the entry found
    under a name is that name. *)
Theorem summarizeRecipe_keyed
    (recipe : Recipe) (s : RecipeSummary) (name : string) (entry : NutrientFact)
    (Hsummary : summarizeRecipe recipe = Return s)
    (Hentry : JsObject.get (nutrientsAtCheapestCost s) name = Some entry) :
  nutrientName entry = name.
Proof.
  apply summarizeRecipe_Return in Hsummary as (st & Hloop & ->). simpl in Hentry.
  refine (keyedByName_get _ _ _ _ Hentry).
  apply reinsert_keyed; [|constructor].
  apply (forOf_invariant (fun st : number * JsObject.t NutrientFact => keyedByName st.2)
           processLineItem (lineItems recipe) (zero, JsObject.empty) st
           processLineItem_keyed); [constructor | exact Hloop].
Qed.

(** *** The entry of a recipe *)

Lemma summaries_lookup recipes init summary :
  forOf (fun summary recipe =>
           s ← summarizeRecipe recipe;
           mret (JsObject.set summary (recipeName recipe) s))
        recipes init = Return summary ->
  (forall name, name ∉ recipeName <$> recipes ->
     JsObject.get summary name = JsObject.get init name) /\
  (forall before recipe after,
     recipes = before ++ recipe :: after ->
     recipeName recipe ∉ recipeName <$> after ->
     exists s, summarizeRecipe recipe = Return s /\
               JsObject.get summary (recipeName recipe) = Some s).
Proof.
  revert init. induction recipes as [|r recipes IH]; intros init Hloop.
  - injection Hloop as <-. split; [reflexivity|].
    intros [|? ?] recipe after Heq; discriminate.
  - apply forOf_cons_Return in Hloop as (init1 & Hstep & Hrest).
    destruct (summarizeRecipe r) as [sr|] eqn:Hr; simpl in Hstep; [|discriminate].
    injection Hstep as <-.
    destruct (IH _ Hrest) as (Hother & Hlast). split.
    + intros name Hname. rewrite fmap_cons, not_elem_of_cons in Hname.
      destruct Hname as [Hne Hname].
      rewrite (Hother name Hname). apply get_set_ne. exact Hne.
    + intros [|r' before] recipe after Heq Hafter; injection Heq as -> ->.
      * exists sr. split; [exact Hr|]. rewrite (Hother _ Hafter). apply get_set_eq.
      * exact (Hlast before recipe after eq_refl Hafter).
Qed.

(** X14. In the mapping [calculateRecipeSummary] returns, the entry of a
    name other than [__proto__] is the summary of the last recipe of that
    name in the list, computed from that recipe alone; a name that no recipe
    has is not a property of the mapping. *)
Theorem calculateRecipeSummary_lookup
    (recipes : list Recipe) (summary : JsObject.t RecipeSummary)
    (Hsummary : calculateRecipeSummary recipes = Return summary) :
  (forall name, name ∉ recipeName <$> recipes -> JsObject.get summary name = None) /\
  (forall before recipe after,
     recipes = before ++ recipe :: after ->
     recipeName recipe <> "__proto__"%string ->
     recipeName recipe ∉ recipeName <$> after ->
     exists s, summarizeRecipe recipe = Return s /\
               JsObject.get summary (recipeName recipe) = Some s).
Proof.
  destruct (summaries_lookup recipes JsObject.empty summary Hsummary) as [Hother Hlast].
  split.
  - intros name Hname. rewrite (Hother name Hname). reflexivity.
  - intros before recipe after Hrecipes _. exact (Hlast before recipe after Hrecipes).
Qed.

(** *** Where an error comes from *)

Lemma forOf_Throw {E S A} (body : S -> A -> Result E S) (l : list A) (s : S) err :
  forOf body l s = Throw err -> exists s0 x, x ∈ l /\ body s0 x = Throw err.
Proof.
  revert s. induction l as [|x l IH]; intros s; simpl; [discriminate|].
  destruct (body s x) as [s1|err1] eqn:Hx; simpl.
  - intros Hrest. destruct (IH _ Hrest) as (s0 & y & Hy & Hbody).
    exists s0, y. split; [apply elem_of_cons; right; exact Hy | exact Hbody].
  - intros [= <-]. exists s, x. split; [apply elem_of_cons; left; reflexivity | exact Hx].
Qed.

Lemma findCheapestSupplier_NoSupplierFound ingredient availableProducts name :
  findCheapestSupplier ingredient availableProducts = Throw (NoSupplierFound name) ->
  name = ingredientName ingredient.
Proof.
  rewrite findCheapestSupplier_scan.
  destruct (costs_or_firstFailure (candidates availableProducts))
    as [[costs Hcosts]|[err Hfail]].
  - destruct (scan_scanned _ _ Hcosts) as ([m [sel|]] & Hscan & _);
      rewrite Hscan; simpl; [discriminate|].
    intros [= <-]. reflexivity.
  - rewrite (scan_firstFailure _ _ _ Hfail). simpl. intros [= ->].
    destruct Hfail as (pre & c & post & _ & _ & Hc).
    apply getNormalizedCost_errors in Hc as [[e He]|(ft & fn & tt & tn & He)];
      discriminate.
Qed.

(** What the accumulation throws: an error of a conversion, or the
    [TypeError] of line 221. *)
Lemma accumulateNutrient_errors requiredUoM normalizedAmount nutrientMap fact err :
  accumulateNutrient requiredUoM normalizedAmount nutrientMap fact = Throw err ->
  (exists e, err = External e) \/
  (exists fromType fromName toType toName,
     err = UnsupportedConversion fromType fromName toType toName) \/
  err = TypeError.
Proof.
  unfold accumulateNutrient. cbv zeta. intros Hfact.
  match type of Hfact with
  | context [convertUnitsWithFallback ?u ?n ?t] =>
      destruct (convertUnitsWithFallback u n t) as [converted|err2] eqn:Hconv;
        cbn [mbind Result_bind] in Hfact
  end.
  - match type of Hfact with
    | match ?r with _ => _ end = _ => destruct r
    end; [discriminate | |]; injection Hfact as <-; right; right; reflexivity.
  - injection Hfact as <-.
    apply convertUnitsWithFallback_errors in Hconv as [?| ->]; eauto 7.
Qed.

Lemma calculateNutrientContribution_errors requiredUoM selectedSupplier nutrientMap err :
  calculateNutrientContribution requiredUoM selectedSupplier nutrientMap = Throw err ->
  (exists e, err = External e) \/
  (exists fromType fromName toType toName,
     err = UnsupportedConversion fromType fromName toType toName) \/
  err = TypeError.
Proof.
  unfold calculateNutrientContribution. intros Hthrow.
  destruct (convertUnitsWithFallback requiredUoM grams mass) as [inGrams|err0] eqn:Hgrams;
    simpl in Hthrow.
  - match type of Hthrow with
    | context [forOf ?body ?l ?s] =>
        destruct (forOf body l s) as [m'|err1] eqn:Hloop; simpl in Hthrow;
          [discriminate|]
    end.
    injection Hthrow as <-.
    apply forOf_Throw in Hloop as (m0 & fact & _ & Hfact).
    exact (accumulateNutrient_errors _ _ _ _ _ Hfact).
  - injection Hthrow as <-.
    apply convertUnitsWithFallback_errors in Hgrams as [?| ->]; eauto 7.
Qed.

(** X15. An error of [calculateRecipeSummary] was thrown for a line item of
    one of the recipes, by the selection of its supplier or by the
    accumulation of its nutrients; the no-supplier error comes from the
    selection and names the ingredient of that line item. *)
Theorem calculateRecipeSummary_Throw
    (recipes : list Recipe) (err : Error)
    (Hthrow : calculateRecipeSummary recipes = Throw err) :
  exists recipe lineItem,
    recipe ∈ recipes /\ lineItem ∈ lineItems recipe /\
    summarizeRecipe recipe = Throw err /\
    (findCheapestSupplier (ingredient lineItem)
       (GetProductsForIngredient (ingredient lineItem)) = Throw err \/
     exists selected nutrientMap,
       findCheapestSupplier (ingredient lineItem)
         (GetProductsForIngredient (ingredient lineItem)) = Return selected /\
       calculateNutrientContribution (unitOfMeasure lineItem) selected nutrientMap
         = Throw err) /\
    (forall name, err = NoSupplierFound name ->
       name = ingredientName (ingredient lineItem) /\
       findCheapestSupplier (ingredient lineItem)
         (GetProductsForIngredient (ingredient lineItem)) = Throw err).
Proof.
  apply forOf_Throw in Hthrow as (summary0 & recipe & Hrecipe & Hbody).
  destruct (summarizeRecipe recipe) as [s|err'] eqn:Hsummary; simpl in Hbody;
    [discriminate|].
  injection Hbody as ->. exists recipe. pose proof Hsummary as Hrecipe_throw.
  unfold summarizeRecipe in Hsummary.
  destruct (forOf processLineItem (lineItems recipe) (zero, JsObject.empty))
    as [st|err'] eqn:Hloop; simpl in Hsummary; [discriminate|].
  injection Hsummary as ->.
  apply forOf_Throw in Hloop as (st0 & lineItem & HlineItem & Hitem).
  exists lineItem. split; [exact Hrecipe|]. split; [exact HlineItem|].
  split; [exact Hrecipe_throw|]. clear Hrecipe_throw.
  unfold processLineItem in Hitem.
  destruct (findCheapestSupplier (ingredient lineItem)
              (GetProductsForIngredient (ingredient lineItem)))
    as [selected|err'] eqn:Hsel; simpl in Hitem.
  - match type of Hitem with
    | context [calculateNutrientContribution ?u ?sel ?m] =>
        destruct (calculateNutrientContribution u sel m) as [r|err'] eqn:Hcontribution;
          simpl in Hitem; [discriminate|]
    end.
    injection Hitem as ->. split.
    + right. exists selected, st0.2. split; [reflexivity | exact Hcontribution].
    + intros name ->.
      apply calculateNutrientContribution_errors in Hcontribution
        as [[e He]|[(ft & fn & tt & tn & He)|He]]; discriminate.
  - injection Hitem as ->. split; [left; reflexivity|].
    intros name ->. split; [|reflexivity].
    exact (findCheapestSupplier_NoSupplierFound _ _ _ Hsel).
Qed.

End FurtherSummary.

(** ** Further properties of the alphabetical order and of the script *)

Section FurtherAlphabetical.
Context `{Helpers}.

Lemma sort_Permutation (names : list string) : JsObject.sort names ≡ₚ names.
Proof. apply merge_sort_Permutation. Qed.

Lemma sort_StronglySorted (names : list string) :
  StronglySorted String.le (JsObject.sort names).
Proof. apply StronglySorted_merge_sort; apply _. Qed.

(** Two lists of the same names sort to the same list. *)
Lemma sort_unique (names names' : list string) :
  names ≡ₚ names' -> JsObject.sort names = JsObject.sort names'.
Proof.
  intros Hperm. apply (StronglySorted_unique String.le);
    [apply sort_StronglySorted | apply sort_StronglySorted |].
  rewrite !sort_Permutation. exact Hperm.
Qed.

Lemma reinsert_ext (nutrientMap1 nutrientMap2 : JsObject.t NutrientFact) names ordered :
  (forall name, JsObject.get nutrientMap1 name = JsObject.get nutrientMap2 name) ->
  reinsert nutrientMap1 names ordered = reinsert nutrientMap2 names ordered.
Proof.
  intros Hget. unfold reinsert. revert ordered.
  induction names as [|name names IH]; intros ordered; simpl; [reflexivity|].
  rewrite Hget. apply IH.
Qed.

Lemma sortNutrientsAlphabetically_names (nutrientMap : JsObject.t NutrientFact) :
  NoDup nutrientMap.*1 ->
  (sortNutrientsAlphabetically nutrientMap).*1
    = JsObject.sort (JsObject.keys nutrientMap).
Proof.
  intros Hobject. unfold sortNutrientsAlphabetically.
  fold (reinsert nutrientMap (JsObject.sort (JsObject.keys nutrientMap)) JsObject.empty).
  assert (Hperm : JsObject.sort (JsObject.keys nutrientMap) ≡ₚ nutrientMap.*1)
    by (rewrite sort_Permutation; apply keys_Permutation).
  rewrite reinsert_names; [reflexivity | rewrite Hperm; exact Hobject |].
  rewrite Forall_forall. intros name Hname. rewrite Hperm in Hname.
  split; [exact Hname | apply not_elem_of_nil].
Qed.

(** X3. For a map that has no property named [__proto__], the function
    creates the properties of the map it returns in ascending order of their
    names by string comparison, one for each name of the given map: the names
    of the result, in the order of their creation, are the names of the map,
    sorted. *)
Theorem sortNutrientsAlphabetically_creation_order
    (nutrientMap : JsObject.t NutrientFact)
    (Hobject : NoDup nutrientMap.*1)
    (Hproto : Forall (fun name => name <> "__proto__"%string) nutrientMap.*1) :
  (sortNutrientsAlphabetically nutrientMap).*1
    = JsObject.sort (JsObject.keys nutrientMap) /\
  StronglySorted String.le (sortNutrientsAlphabetically nutrientMap).*1 /\
  (sortNutrientsAlphabetically nutrientMap).*1 ≡ₚ nutrientMap.*1 /\
  length (sortNutrientsAlphabetically nutrientMap) = length nutrientMap.
Proof.
  pose proof (sortNutrientsAlphabetically_names nutrientMap Hobject) as Hnames.
  assert (Hperm : (sortNutrientsAlphabetically nutrientMap).*1 ≡ₚ nutrientMap.*1)
    by (rewrite Hnames, sort_Permutation; apply keys_Permutation).
  split; [exact Hnames|]. split; [rewrite Hnames; apply sort_StronglySorted|].
  split; [exact Hperm|].
  apply Permutation_length in Hperm. rewrite !length_fmap in Hperm. exact Hperm.
Qed.

(** X16. Sorting a sorted map changes nothing. *)
Theorem sortNutrientsAlphabetically_idempotent
    (nutrientMap : JsObject.t NutrientFact)
    (Hobject : NoDup nutrientMap.*1) :
  sortNutrientsAlphabetically (sortNutrientsAlphabetically nutrientMap)
    = sortNutrientsAlphabetically nutrientMap.
Proof.
  pose proof (sortNutrientsAlphabetically_names nutrientMap Hobject) as Hnames.
  unfold sortNutrientsAlphabetically at 1.
  fold (reinsert (sortNutrientsAlphabetically nutrientMap)
          (JsObject.sort (JsObject.keys (sortNutrientsAlphabetically nutrientMap)))
          JsObject.empty).
  rewrite (sort_unique (JsObject.keys (sortNutrientsAlphabetically nutrientMap))
             (JsObject.keys nutrientMap)).
  - rewrite (reinsert_ext (sortNutrientsAlphabetically nutrientMap) nutrientMap)
      by apply sortNutrientsAlphabetically_get.
    reflexivity.
  - rewrite keys_Permutation, Hnames, sort_Permutation. reflexivity.
Qed.

(** *** [Object.assign] and the script *)

Lemma objectAssign_loop_get {V} (source : JsObject.t V) names target name :
  JsObject.get
    (fold_left
       (fun target k =>
          match JsObject.get source k with
          | Some v => JsObject.set target k v
          | None => target
          end) names target) name =
    if decide (name ∈ names)
    then match JsObject.get source name with
         | Some v => Some v
         | None => JsObject.get target name
         end
    else JsObject.get target name.
Proof.
  revert target. induction names as [|k names IH]; intros target; cbn [fold_left].
  - destruct (decide (name ∈ [])) as [Hin|_]; [|reflexivity].
    apply elem_of_nil in Hin. destruct Hin.
  - rewrite IH. destruct (decide (k = name)) as [->|Hne].
    + destruct (decide (name ∈ name :: names)) as [_|Hnotin];
        [|destruct Hnotin; apply elem_of_cons; left; reflexivity].
      destruct (JsObject.get source name) as [v|] eqn:Hget.
      * destruct (decide (name ∈ names)); [reflexivity | apply get_set_eq].
      * destruct (decide (name ∈ names)); reflexivity.
    + assert (Hother : JsObject.get
                (match JsObject.get source k with
                 | Some v => JsObject.set target k v
                 | None => target
                 end) name = JsObject.get target name).
      { destruct (JsObject.get source k);
          [apply get_set_ne; congruence | reflexivity]. }
      rewrite Hother.
      destruct (decide (name ∈ names)) as [Hin|Hnotin];
        destruct (decide (name ∈ k :: names)) as [Hin'|Hnotin']; try reflexivity.
      * destruct Hnotin'. apply elem_of_cons. right. exact Hin.
      * apply elem_of_cons in Hin' as [->|Hin']; [congruence | tauto].
Qed.

Lemma objectAssign_loop_names {V} (source : JsObject.t V) names target :
  NoDup names ->
  Forall (fun name => name ∈ source.*1 /\ name ∉ target.*1) names ->
  (fold_left
     (fun target k =>
        match JsObject.get source k with
        | Some v => JsObject.set target k v
        | None => target
        end) names target).*1 = target.*1 ++ names.
Proof.
  revert target.
  induction names as [|k names IH]; intros target Hnodup Hall; cbn [fold_left].
  - rewrite app_nil_r. reflexivity.
  - apply NoDup_cons in Hnodup as [Hk Hnodup].
    apply Forall_cons in Hall as [[Hin Hnotin] Hall].
    destruct (JsObject.get source k) as [v|] eqn:Hget.
    + rewrite IH.
      * rewrite set_names_new by exact Hnotin. rewrite <- app_assoc. reflexivity.
      * exact Hnodup.
      * rewrite Forall_forall in Hall |- *. intros name Hname.
        destruct (Hall name Hname) as [H1 H2]. split; [exact H1|].
        rewrite set_names_new by exact Hnotin.
        rewrite elem_of_app, list_elem_of_singleton.
        intros [?| ->]; [tauto | exact (Hk Hname)].
    + apply get_None in Hget. tauto.
Qed.

Lemma objectAssign_lookup {V} (target source : JsObject.t V) (name : string) :
  JsObject.get (objectAssign target source) name =
    match JsObject.get source name with
    | Some v => Some v
    | None => JsObject.get target name
    end.
Proof.
  unfold objectAssign. rewrite objectAssign_loop_get.
  destruct (decide (name ∈ JsObject.keys source)) as [_|Hnotin]; [reflexivity|].
  rewrite keys_Permutation in Hnotin. apply get_None in Hnotin. rewrite Hnotin.
  reflexivity.
Qed.

Lemma calculateRecipeSummary_NoDup recipes summary :
  calculateRecipeSummary recipes = Return summary -> NoDup summary.*1.
Proof.
  unfold calculateRecipeSummary.
  apply (forOf_invariant (fun summary : JsObject.t RecipeSummary => NoDup summary.*1));
    [|apply NoDup_nil_2].
  intros summary0 recipe summary1 Hnodup.
  destruct (summarizeRecipe recipe) as [s|]; simpl; [|discriminate].
  intros [= <-]. apply set_NoDup, Hnodup.
Qed.

(** X17. The script ends with the error of [calculateRecipeSummary] when it
    throws; otherwise [recipeSummary] receives the entries of the returned
    mapping, each under its name, created in the order in which the mapping
    iterates. *)
Theorem script_outcome (recipeData : list Recipe) :
  match calculateRecipeSummary recipeData with
  | Throw err => script recipeData = Throw err
  | Return summary =>
      exists recipeSummary,
        script recipeData = Return recipeSummary /\
        (forall name,
           JsObject.get recipeSummary name = JsObject.get summary name) /\
        recipeSummary.*1 = JsObject.keys summary
  end.
Proof.
  unfold script.
  destruct (calculateRecipeSummary recipeData) as [summary|err] eqn:Hsummary;
    simpl; [|reflexivity].
  eexists. split; [reflexivity|]. split.
  - intros name. rewrite objectAssign_lookup.
    destruct (JsObject.get summary name); reflexivity.
  - unfold objectAssign. rewrite objectAssign_loop_names; [reflexivity | |].
    + rewrite keys_Permutation. exact (calculateRecipeSummary_NoDup _ _ Hsummary).
    + rewrite Forall_forall. intros name Hname. rewrite keys_Permutation in Hname.
      split; [exact Hname | apply not_elem_of_nil].
Qed.

End FurtherAlphabetical.

(** ** Examples in the concrete world *)

Import Fixture.

Lemma Mass_neq_Volume : @mass units <> @volume units.
Proof. discriminate. Qed.

(** In the kitchen two cups make 500 g, by way of millilitres, and two
    kilograms make 2000 ml, by way of grams. *)
Lemma convertUnitsWithFallback_paths_witness :
  @convertUnitsWithFallback _ kitchenHelpers (uom 2 Cups Volume) Grams Mass
    = Return (uom 500 Grams Mass) /\
  @convertUnitsWithFallback _ kitchenHelpers (uom 2 Kilogram Mass) Millilitres Volume
    = Return (uom 2000 Millilitres Volume).
Proof.
  split.
  - rewrite (proj1 (proj2 (@convertUnitsWithFallback_paths _ kitchenHelpers
               Mass_neq_Volume (uom 2 Cups Volume) Grams Mass))
               (Cups, Grams) eq_refl eq_refl eq_refl).
    reflexivity.
  - rewrite (proj2 (proj2 (@convertUnitsWithFallback_paths _ kitchenHelpers
               Mass_neq_Volume (uom 2 Kilogram Mass) Millilitres Volume))
               (Kilogram, Millilitres) eq_refl eq_refl eq_refl).
    reflexivity.
Defined.

(** C4, counterexample.  Without a conversion from cups to millilitres, the
    conversion of a cup to kilograms throws what [ConvertUnits] threw for the
    hop from cups to millilitres, and not the error that names the source,
    cups of volume, and the target, kilograms of mass. *)
Lemma convertUnitsWithFallback_hop_error :
  @ConvertUnits _ scenarioHelpers (uom 1 Cups Volume) Kilogram Mass
    = Throw (Cups, Kilogram) /\
  @ConvertUnits _ scenarioHelpers (uom 1 Cups Volume) Millilitres Volume
    = Throw (Cups, Millilitres) /\
  @convertUnitsWithFallback _ scenarioHelpers (uom 1 Cups Volume) Kilogram Mass
    = Throw (@External _ scenarioHelpers (Cups, Millilitres)) /\
  @convertUnitsWithFallback _ scenarioHelpers (uom 1 Cups Volume) Kilogram Mass
    <> Throw (@UnsupportedConversion units scenarioHelpers Volume Cups Mass Kilogram).
Proof. repeat split; discriminate. Qed.

Lemma convertUnitsWithFallback_failure_witness :
  @convertUnitsWithFallback _ scenarioHelpers (uom 1 Whole Count) Grams Mass
    = Throw (@UnsupportedConversion units scenarioHelpers Count Whole Mass Grams) /\
  @convertUnitsWithFallback _ scenarioHelpers (uom 1 Cups Volume) Kilogram Mass
    = Throw (@External _ scenarioHelpers (Cups, Millilitres)).
Proof.
  split.
  - apply (proj1 (@convertUnitsWithFallback_failure _ scenarioHelpers
             Mass_neq_Volume (uom 1 Whole Count) Grams Mass (Whole, Grams) eq_refl)).
    + intros [Hfrom _]. discriminate Hfrom.
    + intros [Hfrom _]. discriminate Hfrom.
  - apply (proj1 (proj2 (@convertUnitsWithFallback_failure _ scenarioHelpers
             Mass_neq_Volume (uom 1 Cups Volume) Kilogram Mass (Cups, Kilogram) eq_refl))
             (Cups, Millilitres) eq_refl eq_refl).
    left. reflexivity.
Defined.

(** C3, counterexample.  The only supplier sells by the piece, so that every
    cost computation fails; the selection throws the conversion's error and
    not the no-supplier error. *)
Lemma findCheapestSupplier_conversion_error :
  candidates [eggs] = [(eggs, byThePiece)] /\
  @getNormalizedCost _ scenarioHelpers byThePiece
    = Throw (@UnsupportedConversion units scenarioHelpers Count Whole Mass Grams) /\
  @findCheapestSupplier _ scenarioHelpers (named "Eggs") [eggs]
    = Throw (@UnsupportedConversion units scenarioHelpers Count Whole Mass Grams) /\
  @findCheapestSupplier _ scenarioHelpers (named "Eggs") [eggs]
    <> Throw (NoSupplierFound "Eggs").
Proof. repeat split; discriminate. Qed.

(** C6, counterexample.  The second supplier has a cost, 0.002 per gram, but
    the first sells by the piece: the selection throws and returns no
    supplier. *)
Lemma findCheapestSupplier_one_failing_supplier :
  candidates [eggsAndFlour]
    = [(eggsAndFlour, byThePiece); (eggsAndFlour, scenarioSupplier)] /\
  @getNormalizedCost _ scenarioHelpers scenarioSupplier
    = Return (div (of_Z 2) (of_Z 1000)) /\
  ltb (div (of_Z 2) (of_Z 1000)) Infinity = true /\
  @findCheapestSupplier _ scenarioHelpers (named "Eggs") [eggsAndFlour]
    = Throw (@UnsupportedConversion units scenarioHelpers Count Whole Mass Grams).
Proof. repeat split. Qed.

(** Of the suppliers at 0.05, 0.03, 0.08 and again 0.03 per gram, the second
    is selected. *)
Lemma findCheapestSupplier_minimum_witness :
  exists i sel,
    @findCheapestSupplier _ kitchenHelpers (named "Sugar") [sugarA; sugarB]
      = Return sel /\
    selects (candidates [sugarA; sugarB])
      [div (of_Z 5) (of_Z 100); div (of_Z 3) (of_Z 100);
       div (of_Z 8) (of_Z 100); div (of_Z 3) (of_Z 100)] i sel.
Proof.
  apply (@findCheapestSupplier_minimum _ kitchenHelpers (named "Sugar")
           [sugarA; sugarB]).
  - repeat constructor.
  - constructor. vm_compute. reflexivity.
Defined.

Lemma findCheapestSupplier_errors_witness :
  @findCheapestSupplier _ scenarioHelpers (named "Saffron") []
    = Throw (NoSupplierFound "Saffron").
Proof.
  apply (proj1 (proj2 (@findCheapestSupplier_errors _ scenarioHelpers
           (named "Saffron") []))).
  reflexivity.
Defined.

(** 500 g of flour: 10 g of protein per 100 g are added to the empty map, and
    the cost is 500 times the cost per gram. *)
Lemma calculateNutrientContribution_spec_witness :
  let selected :=
    {| cost := div (of_Z 2) (of_Z 1000);
       product := scenarioProduct; supplier := scenarioSupplier |} in
  exists nutrientMap',
    @calculateNutrientContribution _ scenarioHelpers (gramsOf 500) selected
      JsObject.empty
      = Return (nutrientMap', mul (of_Z 500) (div (of_Z 2) (of_Z 1000))) /\
    @Accumulated _ scenarioHelpers (gramsOf 500) (of_Z 500)
      [proteinPer100g 10] JsObject.empty nutrientMap'.
Proof.
  intros selected.
  apply (@calculateNutrientContribution_spec _ scenarioHelpers (gramsOf 500)
           selected JsObject.empty (gramsOf 500)).
  - reflexivity.
  - repeat constructor. exists (gramsOf 500). reflexivity.
  - repeat constructor.
Defined.

(** C5, on a failing input: 500 g of a product whose facts are 10 g of
    protein and 1 g of [toString] per 100 g, accumulated into an empty map.
    The entry of the protein has been created when the fact named [toString]
    is reached; [nutrientMap["toString"]] is then the method every object
    inherits, no entry is created, and line 221 throws. *)
Lemma calculateNutrientContribution_inherited_name_witness :
  JsObject.read (@JsObject.empty NutrientFact) "toString" = JsObject.Inherited /\
  @calculateNutrientContribution _ scenarioHelpers (gramsOf 500) oddlyNamedSelected
    JsObject.empty
    = Throw (@TypeError _ scenarioHelpers).
Proof.
  split; [reflexivity|].
  eapply (@calculateNutrientContribution_inherited_name _ scenarioHelpers (gramsOf 500)
            oddlyNamedSelected JsObject.empty _ (gramsOf 500) (gramsOf 500)
            [proteinPer100g 10] [] (factOf "toString" 1 100)).
  - reflexivity.
  - reflexivity.
  - reflexivity.
  - reflexivity.
  - reflexivity.
  - reflexivity.
Defined.

(** C7, in a world.  Two cups at 3.00 are 500 g by way of millilitres: the
    cost is 3 / 500, and with a [ConvertUnits] that leaves the world as it
    finds it the world is left as it was.  With a [ConvertUnits] that counts
    its calls the count has not gone down. *)
Lemma getNormalizedCost_spec_witness :
  @Stateful.getNormalizedCost _ kitchenHelpers nat kitchenConvert byTheCup 7%nat
    = (Return (div (of_Z 3) (uomAmount (uom 500 Grams Mass))), 7%nat) /\
  (@Stateful.getNormalizedCost _ kitchenHelpers nat kitchenConvert byTheCup 7%nat).2
    = 7%nat /\
  (7 <= (@Stateful.getNormalizedCost _ kitchenHelpers nat countingConvert byTheCup
           7%nat).2)%nat.
Proof.
  split; [|split].
  - apply (proj1 (@getNormalizedCost_spec _ kitchenHelpers nat kitchenConvert eq
                    (fun w => eq_refl) (fun w1 w2 w3 H12 H23 => eq_trans H12 H23)
                    (fun u n t w => eq_refl) byTheCup 7%nat)).
    reflexivity.
  - symmetry.
    exact (proj1 (proj2 (proj2
             (@getNormalizedCost_spec _ kitchenHelpers nat kitchenConvert eq
                (fun w => eq_refl) (fun w1 w2 w3 H12 H23 => eq_trans H12 H23)
                (fun u n t w => eq_refl) byTheCup 7%nat)))).
  - exact (proj1 (proj2 (proj2
             (@getNormalizedCost_spec _ kitchenHelpers nat countingConvert le
                (fun w => le_n w) (fun w1 w2 w3 H12 H23 => Nat.le_trans _ _ _ H12 H23)
                (fun u n t w => le_S _ _ (le_n w)) byTheCup 7%nat)))).
Defined.

(** The helper that counts its calls has been called four times: once for the
    direct conversion, which throws, and once for each hop. *)
Lemma getNormalizedCost_counts_calls :
  @Stateful.getNormalizedCost _ kitchenHelpers nat countingConvert byTheCup 0%nat
    = (Return (div (of_Z 3) (uomAmount (uom 500 Grams Mass))), 4%nat).
Proof. reflexivity. Qed.

(** C9, counterexample.  Bread alone is summarized; the saffron cake has no
    supplier; the two together give the error and no summary of the bread. *)
Lemma calculateRecipeSummary_aborts_all :
  @calculateRecipeSummary _ scenarioHelpers [bread]
    = Return [("Bread"%string,
               {| cheapestCost := of_Z 1;
                  nutrientsAtCheapestCost :=
                    [("Protein"%string, proteinPer100g 10)] |})] /\
  @summarizeRecipe _ scenarioHelpers saffronCake
    = Throw (NoSupplierFound "Saffron") /\
  @calculateRecipeSummary _ scenarioHelpers [bread; saffronCake]
    = Throw (NoSupplierFound "Saffron").
Proof. repeat split; vm_compute; reflexivity. Qed.

Lemma calculateRecipeSummary_failure_witness :
  @calculateRecipeSummary _ scenarioHelpers ([bread] ++ saffronCake :: [bread])
    = Throw (NoSupplierFound "Saffron").
Proof.
  apply (@calculateRecipeSummary_failure _ scenarioHelpers [bread] [bread]
           saffronCake (NoSupplierFound "Saffron")).
  - repeat constructor. eexists. vm_compute. reflexivity.
  - vm_compute. reflexivity.
Defined.




(** The example of the spec: Zinc, Protein, Iron iterate as Iron, Protein,
    Zinc. *)
Theorem sortNutrientsAlphabetically_example :
  JsObject.keys
    (sortNutrientsAlphabetically
       [("Zinc"%string, factOf "Zinc" 1 100);
        ("Protein"%string, factOf "Protein" 2 100);
        ("Iron"%string, factOf "Iron" 3 100)])
  = ["Iron"; "Protein"; "Zinc"]%string.
Proof. vm_compute. reflexivity. Qed.

(** C8, on a failing input.  With nutrients named 10 and 9 the recipe is
    summarized, and the names of the nutrient mapping iterate as 9, 10: an
    object lists its array-index names first, in numeric order, whatever the
    order of their creation.  By string comparison 10 comes before 9. *)
Theorem sortNutrientsAlphabetically_numerals :
  exists s,
    @calculateRecipeSummary _ numberedHelpers [bread] = Return [("Bread"%string, s)] /\
    (nutrientsAtCheapestCost s).*1 = ["10"; "9"]%string /\
    JsObject.keys (nutrientsAtCheapestCost s) = ["9"; "10"]%string /\
    JsObject.sort ["9"; "10"]%string = ["10"; "9"]%string /\
    String.ltb "10" "9" = true.
Proof. eexists. repeat split; vm_compute; reflexivity. Qed.

(** The breakfast: 500 g of muesli, whose nutrients are accumulated as Zinc,
    Protein, Iron; the mapping of the summary iterates as Iron, Protein,
    Zinc, and holds what the accumulated map holds. *)
Lemma summarizeRecipe_sorted_witness :
  exists s totalCost nutrientMap,
    @summarizeRecipe _ muesliHelpers breakfast = Return s /\
    forOf (@processLineItem _ muesliHelpers) (lineItems breakfast) (zero, JsObject.empty)
      = Return (totalCost, nutrientMap) /\
    nutrientMap.*1 = ["Zinc"; "Protein"; "Iron"]%string /\
    JsObject.keys (nutrientsAtCheapestCost s) = ["Iron"; "Protein"; "Zinc"]%string /\
    StronglySorted String.le (JsObject.keys (nutrientsAtCheapestCost s)) /\
    JsObject.get (nutrientsAtCheapestCost s) "Zinc" = JsObject.get nutrientMap "Zinc" /\
    JsObject.get (nutrientsAtCheapestCost s) "Iron" = JsObject.get nutrientMap "Iron".
Proof.
  destruct (@summarizeRecipe _ muesliHelpers breakfast) as [s|err] eqn:Hsummary;
    [|discriminate Hsummary].
  destruct (@summarizeRecipe_sorted _ muesliHelpers breakfast s Hsummary)
    as (totalCost & nutrientMap & Hloop & _ & Hget & Hsorted).
  exists s, totalCost, nutrientMap. split; [reflexivity|]. split; [exact Hloop|].
  assert (Hnames : nutrientMap.*1 = ["Zinc"; "Protein"; "Iron"]%string).
  { pose proof Hloop as Hloop'. vm_compute in Hloop'.
    injection Hloop' as _ <-. reflexivity. }
  split; [exact Hnames|].
  destruct Hsorted as [Hkeys Hordered].
  { rewrite Hnames. repeat constructor. }
  split; [|split; [exact Hordered | split; apply Hget]].
  rewrite Hkeys. unfold JsObject.keys. rewrite Hnames. reflexivity.
Defined.

(** ** Examples of the further properties *)

Lemma convertUnitsWithFallback_Return_witness :
  exists u0, @ConvertUnits _ kitchenHelpers u0 Grams Mass = Return (uom 500 Grams Mass).
Proof.
  apply (@convertUnitsWithFallback_Return _ kitchenHelpers
           (uom 2 Cups Volume) Grams Mass (uom 500 Grams Mass)).
  reflexivity.
Defined.

Lemma convertUnitsWithFallback_Throw_witness :
  exists e0, @ConvertUnits _ scenarioHelpers (uom 1 Cups Volume) Kilogram Mass = Throw e0.
Proof.
  apply (@convertUnitsWithFallback_Throw _ scenarioHelpers
           (uom 1 Cups Volume) Kilogram Mass
           (@External _ scenarioHelpers (Cups, Millilitres))).
  reflexivity.
Defined.

Lemma findCheapestSupplier_Return_witness :
  let sel := {| cost := div (of_Z 3) (of_Z 100); product := sugarA;
                supplier := supplierOf 3 100 Grams Mass |} in
  product sel ∈ [sugarA; sugarB] /\
  supplier sel ∈ supplierProducts (product sel) /\
  @getNormalizedCost _ kitchenHelpers (supplier sel) = Return (cost sel) /\
  ltb (cost sel) Infinity = true /\
  forall p s, p ∈ [sugarA; sugarB] -> s ∈ supplierProducts p ->
    exists k, @getNormalizedCost _ kitchenHelpers s = Return k /\
              ltb k (cost sel) = false.
Proof.
  intros sel.
  apply (@findCheapestSupplier_Return _ kitchenHelpers (named "Sugar")
           [sugarA; sugarB] sel).
  reflexivity.
Defined.

Lemma findCheapestSupplier_Permutation_witness :
  exists sel',
    @findCheapestSupplier _ kitchenHelpers (named "Sugar") [sugarB; sugarA]
      = Return sel' /\
    sameNumber (div (of_Z 3) (of_Z 100)) (cost sel') = true.
Proof.
  apply (@findCheapestSupplier_Permutation _ kitchenHelpers (named "Sugar")
           [sugarA; sugarB] [sugarB; sugarA]
           {| cost := div (of_Z 3) (of_Z 100); product := sugarA;
              supplier := supplierOf 3 100 Grams Mass |}).
  - apply Permutation_swap.
  - reflexivity.
Defined.

(** A package of 0 g at 2.00 costs [Infinity]; alone, it leaves the
    ingredient without a supplier. *)
Lemma findCheapestSupplier_zero_packages_witness :
  @zeroGramPackage _ scenarioHelpers emptyPack /\
  @getNormalizedCost _ scenarioHelpers emptyPack = Return Infinity /\
  (exists k, @getNormalizedCost _ scenarioHelpers emptyPack = Return k /\
             ltb k Infinity = false) /\
  @findCheapestSupplier _ scenarioHelpers (named "Air") [air]
    = Throw (NoSupplierFound "Air").
Proof.
  assert (Hzero : @zeroGramPackage _ scenarioHelpers emptyPack).
  { exists (uom 0 Grams Mass). split; [reflexivity|]. left. split; reflexivity. }
  destruct (@findCheapestSupplier_zero_packages _ scenarioHelpers emptyPack Hzero)
    as (Hcost & _ & Hnone).
  split; [exact Hzero|]. split; [reflexivity|]. split; [exact Hcost|].
  apply Hnone. intros p s Hp Hs. apply list_elem_of_singleton in Hp as ->.
  apply list_elem_of_singleton in Hs as ->. exact Hzero.
Defined.

(** Beside the supplier of the scenario the package of 0 g is passed over,
    and a package of [-0] grams at 2.00 costs [-Infinity]. *)
Lemma findCheapestSupplier_passes_over_zero_package :
  @findCheapestSupplier _ scenarioHelpers (named "Flour") [air; scenarioProduct]
    = Return scenarioSelected /\
  @getNormalizedCost _ scenarioHelpers negativeZeroPack = Return (S754_infinity true).
Proof. split; reflexivity. Qed.

Lemma calculateNutrientContribution_basis_witness :
  let nutrientMap' : JsObject.t NutrientFact :=
    [("Protein"%string,
      {| nutrientName := "Protein";
         quantityAmount :=
           {| uomAmount := add (of_Z 7) (of_Z 10); uomName := Grams; uomType := Mass |};
         quantityPer := gramsOf 100 |})] in
  (forall name entry, JsObject.get someProtein name = Some entry ->
     exists entry', JsObject.get nutrientMap' name = Some entry' /\
                    sameBasis entry entry') /\
  (forall name entry', JsObject.get nutrientMap' name = Some entry' ->
     JsObject.get someProtein name = None ->
     exists before fact after,
       nutrientFacts (product scenarioSelected) = before ++ fact :: after /\
       Forall (fun earlier =>
                 nutrientName (@GetNutrientFactInBaseUnits _ scenarioHelpers earlier)
                   <> name) before /\
       nutrientName (@GetNutrientFactInBaseUnits _ scenarioHelpers fact) = name /\
       sameBasis (@GetNutrientFactInBaseUnits _ scenarioHelpers fact) entry').
Proof.
  intros nutrientMap'.
  apply (@calculateNutrientContribution_basis _ scenarioHelpers (gramsOf 500)
           scenarioSelected someProtein nutrientMap'
           (mul (of_Z 500) (div (of_Z 2) (of_Z 1000)))).
  reflexivity.
Defined.

Lemma calculateNutrientContribution_zero_quantity_witness :
  exists nutrientMap',
    @calculateNutrientContribution _ scenarioHelpers (gramsOf 0) scenarioSelected
      someProtein
      = Return (nutrientMap', mul (of_Z 0) (div (of_Z 2) (of_Z 1000))) /\
    (forall name, amountOf someProtein name = NaN -> amountOf nutrientMap' name = NaN) /\
    Forall
      (fun fact =>
         amountOf nutrientMap'
           (nutrientName (@GetNutrientFactInBaseUnits _ scenarioHelpers fact)) = NaN)
      [proteinPer100g 10].
Proof.
  apply (@calculateNutrientContribution_zero_quantity _ scenarioHelpers (gramsOf 0)
           scenarioSelected someProtein (gramsOf 0)).
  - reflexivity.
  - exists false. reflexivity.
  - repeat constructor. exists (gramsOf 0). split; [reflexivity|].
    exists false. reflexivity.
  - repeat constructor.
Defined.

Lemma summarizeRecipe_cost_witness :
  exists costs,
    Forall2 (@lineItemCostIs _ scenarioHelpers) (lineItems bread) costs /\
    of_Z 1 = fold_left add costs zero.
Proof.
  apply (@summarizeRecipe_cost _ scenarioHelpers bread breadSummary).
  reflexivity.
Defined.

Lemma summarizeRecipe_keyed_witness :
  nutrientName (proteinPer100g 10) = "Protein"%string.
Proof.
  apply (@summarizeRecipe_keyed _ scenarioHelpers bread breadSummary "Protein"
           (proteinPer100g 10)); reflexivity.
Defined.

Lemma calculateRecipeSummary_lookup_witness :
  let summary : JsObject.t RecipeSummary := [("Bread"%string, breadSummary)] in
  (forall name, name ∉ recipeName <$> [bread; bread] ->
     JsObject.get summary name = None) /\
  (forall before recipe after,
     [bread; bread] = before ++ recipe :: after ->
     recipeName recipe <> "__proto__"%string ->
     recipeName recipe ∉ recipeName <$> after ->
     exists s, @summarizeRecipe _ scenarioHelpers recipe = Return s /\
               JsObject.get summary (recipeName recipe) = Some s).
Proof.
  intros summary.
  apply (@calculateRecipeSummary_lookup _ scenarioHelpers [bread; bread] summary).
  reflexivity.
Defined.

Lemma calculateRecipeSummary_Throw_witness :
  exists recipe lineItem,
    recipe ∈ [bread; saffronCake] /\ lineItem ∈ lineItems recipe /\
    @summarizeRecipe _ scenarioHelpers recipe = Throw (NoSupplierFound "Saffron") /\
    (@findCheapestSupplier _ scenarioHelpers (ingredient lineItem)
       (@GetProductsForIngredient _ scenarioHelpers (ingredient lineItem))
       = Throw (NoSupplierFound "Saffron") \/
     exists selected nutrientMap,
       @findCheapestSupplier _ scenarioHelpers (ingredient lineItem)
         (@GetProductsForIngredient _ scenarioHelpers (ingredient lineItem))
         = Return selected /\
       @calculateNutrientContribution _ scenarioHelpers (unitOfMeasure lineItem)
         selected nutrientMap = Throw (NoSupplierFound "Saffron")) /\
    (forall name, @NoSupplierFound _ scenarioHelpers "Saffron" = NoSupplierFound name ->
       name = ingredientName (ingredient lineItem) /\
       @findCheapestSupplier _ scenarioHelpers (ingredient lineItem)
         (@GetProductsForIngredient _ scenarioHelpers (ingredient lineItem))
         = Throw (NoSupplierFound "Saffron")).
Proof.
  apply (@calculateRecipeSummary_Throw _ scenarioHelpers [bread; saffronCake]
           (NoSupplierFound "Saffron")).
  reflexivity.
Defined.

Lemma numerals_NoDup :
  NoDup [("9"%string, factOf "9" 2 100); ("10"%string, factOf "10" 1 100)].*1.
Proof.
  apply NoDup_cons. split; [|apply NoDup_singleton].
  intros Hin. apply list_elem_of_singleton in Hin. discriminate.
Qed.

Lemma numerals_not_proto :
  Forall (fun name => name <> "__proto__"%string)
    [("9"%string, factOf "9" 2 100); ("10"%string, factOf "10" 1 100)].*1.
Proof. repeat constructor; discriminate. Qed.

(** With the names 9 and 10, the properties are created as 10, 9. *)
Lemma sortNutrientsAlphabetically_creation_order_witness :
  (sortNutrientsAlphabetically
     [("9"%string, factOf "9" 2 100); ("10"%string, factOf "10" 1 100)]).*1
  = ["10"; "9"]%string.
Proof.
  rewrite (proj1 (sortNutrientsAlphabetically_creation_order
             [("9"%string, factOf "9" 2 100); ("10"%string, factOf "10" 1 100)]
             numerals_NoDup numerals_not_proto)).
  reflexivity.
Defined.

(** Of Zinc, Protein and Iron, the sorted map holds under Protein what the
    map holds, and nothing under Fat. *)
Lemma sortNutrientsAlphabetically_entries_witness :
  JsObject.get (sortNutrientsAlphabetically threeNutrients) "Protein"
    = Some (factOf "Protein" 2 100) /\
  JsObject.get (sortNutrientsAlphabetically threeNutrients) "Fat" = None.
Proof.
  split.
  - rewrite (sortNutrientsAlphabetically_entries threeNutrients "Protein").
    + reflexivity.
    + discriminate.
  - rewrite (sortNutrientsAlphabetically_entries threeNutrients "Fat").
    + reflexivity.
    + discriminate.
Defined.

(** Water has no line items: it costs 0 and has no nutrients, alone and after
    the bread. *)
Lemma calculateRecipeSummary_no_line_items_witness :
  @calculateRecipeSummary _ scenarioHelpers [water]
    = Return [("Water"%string,
               {| cheapestCost := zero; nutrientsAtCheapestCost := JsObject.empty |})] /\
  @calculateRecipeSummary _ scenarioHelpers ([bread] ++ [water])
    = Return [("Bread"%string, breadSummary);
              ("Water"%string,
               {| cheapestCost := zero; nutrientsAtCheapestCost := JsObject.empty |})].
Proof.
  assert (Hname : "Water"%string <> "__proto__"%string) by discriminate.
  destruct (@calculateRecipeSummary_no_line_items _ scenarioHelpers "Water" Hname)
    as (_ & _ & Halone & Hafter).
  split; [exact Halone|].
  apply (proj1 (Hafter [bread] [("Bread"%string, breadSummary)] eq_refl)).
Defined.

Lemma sortNutrientsAlphabetically_idempotent_witness :
  sortNutrientsAlphabetically
    (sortNutrientsAlphabetically
       [("9"%string, factOf "9" 2 100); ("10"%string, factOf "10" 1 100)])
  = [("10"%string, factOf "10" 1 100); ("9"%string, factOf "9" 2 100)].
Proof.
  rewrite (sortNutrientsAlphabetically_idempotent
             [("9"%string, factOf "9" 2 100); ("10"%string, factOf "10" 1 100)]
             numerals_NoDup).
  reflexivity.
Defined.

(** 7 g of protein in the map, and one fact that adds 10. *)
Lemma calculateNutrientContribution_amount_witness :
  exists inGrams values,
    @convertUnitsWithFallback _ scenarioHelpers (gramsOf 500) Grams Mass
      = Return inGrams /\
    Forall2 (@contributionIs _ scenarioHelpers (gramsOf 500) (uomAmount inGrams))
      (@factsNaming _ scenarioHelpers "Protein" (nutrientFacts (product scenarioSelected)))
      values /\
    add (of_Z 7) (of_Z 10) = fold_left add values (amountOf someProtein "Protein").
Proof.
  apply (@calculateNutrientContribution_amount _ scenarioHelpers (gramsOf 500)
           scenarioSelected someProtein moreProtein
           (mul (of_Z 500) (div (of_Z 2) (of_Z 1000))) "Protein").
  reflexivity.
Defined.
